(** * bookmark_tagger: the tag cache, the tree walker and the two phases

    A shallow embedding of [add_advanced_tags.py].

    - Python strings are Rocq strings whose characters are read as code
      points below 256; [str.strip], [str.split], [str.join],
      [str.startswith], [str.lower] and [in] are written out on them.
    - The SQLite table [page_tags] (primary key [url]) is a finite map from
      url to row.
    - A bookmark node (a JSON object) is a record of the keys the program
      reads or writes, each optional as a dictionary key is, plus the
      remaining keys carried along untouched.
    - The network (page fetch, generation service) and the clock are
      parameters; every call carries the index of the bookmark it is made
      for, so an answer may differ from one call to the next.
    - The loop of Phase 1 threads the store and the quota flag and emits the
      ordered list of what it prints and calls. *)

From Stdlib Require Import Ascii String.
From stdpp Require Import gmap strings list.

(** ** Python string operations *)

Module Py.

(** [bool(s)] for a string: non-empty. *)
Definition truthy (s : string) : bool :=
  match s with
  | EmptyString => false
  | String _ _ => true
  end.

(** [bool(l)] for a list: non-empty. *)
Definition nonempty {A} (l : list A) : bool :=
  match l with
  | [] => false
  | _ :: _ => true
  end.

(** [str.isspace] on one character, for code points below 256:
    U+0009..U+000D, U+001C..U+0020, U+0085 and U+00A0. *)
Definition isspace (c : ascii) : bool :=
  let n := nat_of_ascii c in
  (((9 <=? n) && (n <=? 13)) || ((28 <=? n) && (n <=? 32))
   || (n =? 133) || (n =? 160))%nat.

Fixpoint lstrip (s : string) : string :=
  match s with
  | EmptyString => EmptyString
  | String c s' => if isspace c then lstrip s' else s
  end.

Fixpoint rstrip (s : string) : string :=
  match s with
  | EmptyString => EmptyString
  | String c s' =>
      match rstrip s' with
      | EmptyString => if isspace c then EmptyString else String c EmptyString
      | r => String c r
      end
  end.

(** [s.strip()] *)
Definition strip (s : string) : string := rstrip (lstrip s).

(** [s.split(sep)] for a one-character separator: never the empty list,
    [''.split(',')] is [['']]. *)
Fixpoint split (sep : ascii) (s : string) : list string :=
  match s with
  | EmptyString => [EmptyString]
  | String c s' =>
      if Ascii.eqb c sep then EmptyString :: split sep s'
      else match split sep s' with
           | [] => [String c EmptyString]
           | w :: ws => String c w :: ws
           end
  end.

(** [sep.join(l)] *)
Definition join (sep : string) (l : list string) : string :=
  String.concat sep l.

(** [s.startswith(p)] *)
Definition startswith (s p : string) : bool := String.prefix p s.

(** [s[:n]] *)
Definition take (n : nat) (s : string) : string := String.substring 0 n s.

(** [str.lower] on one character, for code points below 256. *)
Definition lower_char (c : ascii) : ascii :=
  let n := nat_of_ascii c in
  if (((65 <=? n) && (n <=? 90))
      || ((192 <=? n) && (n <=? 222) && negb (n =? 215)))%nat
  then ascii_of_nat (n + 32) else c.

Fixpoint lower (s : string) : string :=
  match s with
  | EmptyString => EmptyString
  | String c s' => String (lower_char c) (lower s')
  end.

(** [p in s] *)
Fixpoint contains (p s : string) : bool :=
  String.prefix p s ||
  match s with
  | EmptyString => false
  | String _ s' => contains p s'
  end.

End Py.

(** ** The tag cache: class [TagDB] *)

Module TagDB.

(** One row of [page_tags]; the key [url] is the key of the map. *)
Record row := Row {
  title : string;
  tags : string;
  updated_at : string
}.

(** The table. [create_table] makes it empty when the file is new. *)
Abbreviation t := (gmap string row).

Definition create_table (file : option t) : t :=
  match file with
  | Some db => db
  | None => ∅
  end.

(** [SELECT tags FROM page_tags WHERE url = ?], [None] when no row. *)
Definition get_tags (db : t) (url : string) : option string :=
  match db !! url with
  | Some r => Some (tags r)
  | None => None
  end.

(** [INSERT ... ON CONFLICT(url) DO UPDATE SET tags, updated_at]: a new row
    takes all four values; on an existing row only [tags] and [updated_at]
    are assigned. [now] is [datetime.datetime.now().isoformat()]. *)
Definition upsert_tags (db : t) (url title0 : string) (tags_list : list string)
    (now : string) : t :=
  let tags_str := Py.join "," tags_list in
  match db !! url with
  | None =>
      <[url := {| title := title0; tags := tags_str; updated_at := now |}]> db
  | Some r =>
      <[url := {| title := title r; tags := tags_str; updated_at := now |}]> db
  end.

End TagDB.

(** ** Bookmark nodes *)

(** The keys of a node object that the program touches; [others] holds every
    other key with its value. *)
#[warnings="-register-all"]
Inductive node := Node {
  type : option string;
  uri : option string;
  title : option string;
  tags : option string;
  children : option (list node);
  others : list (string * string)
}.

(** [d.get(k, '')] *)
Definition get_or_empty (o : option string) : string :=
  match o with
  | Some s => s
  | None => EmptyString
  end.

Definition is_place (n : node) : bool :=
  match type n with
  | Some ty => String.eqb ty "text/x-moz-place"
  | None => false
  end.

(** [collect_bookmarks(node, bucket)]: the bucket after the call. The
    function assigns to no node, so the bucket is all it changes. *)
Fixpoint collect_bookmarks (n : node) (bucket : list node) : list node :=
  let bucket1 := if is_place n then bucket ++ [n] else bucket in
  match children n with
  | Some cs =>
      (fix each (cs : list node) (b : list node) : list node :=
         match cs with
         | [] => b
         | child :: rest => each rest (collect_bookmarks child b)
         end) cs bucket1
  | None => bucket1
  end.

(** [node.get('uri', '').startswith('http')] *)
Definition has_http_uri (n : node) : bool :=
  Py.startswith (get_or_empty (uri n)) "http".

(** The keys [type] and [uri] together: what Phase 2 tests before it looks a
    node up. *)
Definition taggable (n : node) : bool := is_place n && has_http_uri n.

(** [[t.strip() for t in node.get('tags', '').split(',') if t.strip()]] *)
Definition parse_tags (field : string) : list string :=
  List.filter Py.truthy (map Py.strip (Py.split "," field)).

Definition existing_tags (n : node) : list string :=
  parse_tags (get_or_empty (tags n)).

(** ** What a run prints and calls *)

Inductive message :=
  | MsgFileNotFound (path : string)
  | MsgWorkingOnCopy (path : string)
  | MsgNoApiKey
  | MsgQuotaWarning
  | MsgApiError (e : string)
  | MsgPhase1 (total : nat)
  | MsgAnalysis (position total : nat) (title40 : string)
  | MsgGenerated (new_tags : list string)
  | MsgNoTags
  | MsgApiLimit
  | MsgFetchFailed
  | MsgPhase2
  | MsgSaving (path : string)
  | MsgComplete.

(** A call made while bookmark number [i] of the flat list is processed. *)
Inductive action :=
  | Fetch (url : string)
  | Generate (final_title content : string)
  | Upsert (url title0 : string) (tags_list : list string)
  | Sleep.

Inductive event :=
  | Say (m : message)
  | At (i : nat) (a : action).

(** ** The generation service *)

(** [client.models.generate_content] answers with a text or raises. *)
Inductive reply :=
  | Text (s : string)
  | Raise (e : string).

(** A client: the answer to the prompt sent for bookmark [i]. *)
Definition client := nat -> string -> reply.

(** [generate_tags] returns a list or raises [BlockingIOError]. *)
Inductive generated :=
  | Tags (l : list string)
  | QuotaReached.

Definition nl : string := String (ascii_of_nat 10) EmptyString.

Definition prompt (title0 content : string) : string :=
  (nl +:+ "    Analyze the following webpage content and suggest 3-5 relevant tags for a bookmark."
   +:+ nl +:+ "    Response MUST be a comma-separated list of tags only. No explanation."
   +:+ nl +:+ "    "
   +:+ nl +:+ "    Title: " +:+ title0
   +:+ nl +:+ "    Content Snippet: " +:+ content
   +:+ nl +:+ "    ")%string.

(** [generate_tags(client, title, content)]: what it prints and what it
    returns. *)
Definition generate_tags (c : option client) (i : nat) (title0 content : string)
    : list message * generated :=
  match c with
  | None => ([], Tags [])
  | Some cl =>
      match cl i (prompt title0 content) with
      | Text s => ([], Tags (parse_tags s))
      | Raise e =>
          let err_msg := Py.lower e in
          if Py.contains "429" err_msg || Py.contains "quota" err_msg
             || Py.contains "resource_exhausted" err_msg
          then ([MsgQuotaWarning], QuotaReached)
          else ([MsgApiError e], Tags [])
      end
  end.

(** [setup_gemini()]: [genai_Client] builds the client from the key. *)
Definition setup_gemini (genai_Client : string -> client)
    (GEMINI_API_KEY : option string) : list message * option client :=
  match GEMINI_API_KEY with
  | Some key =>
      if Py.truthy key then ([], Some (genai_Client key))
      else ([MsgNoApiKey], None)
  | None => ([MsgNoApiKey], None)
  end.

(** ** Phase 1 *)

Section Phase1.

(** [get_page_content(url)], called for bookmark [i]: (title, text). *)
Variable get_page_content : nat -> string -> string * string.

(** The module-level name [generate_tags] as [process_phase1] finds it. *)
Variable generator : option client -> nat -> string -> string ->
                     list message * generated.

(** The clock read by the upsert made for bookmark [i]. *)
Variable now : nat -> string.

Variable cl : option client.
Variable init_mode : bool.

(** Number of bookmarks, for the progress line. *)
Variable total : nat.

(** One turn of the [for] loop: the store, the flag [api_quota_reached] and
    what the turn printed and called. *)
Definition phase1_body (i : nat) (n : node) (db : TagDB.t)
    (api_quota_reached : bool) : TagDB.t * bool * list event :=
  let url := get_or_empty (uri n) in
  let title0 := get_or_empty (title n) in
  if negb (Py.startswith url "http") then (db, api_quota_reached, [])
  else
    let existing := existing_tags n in
    if negb init_mode && Py.nonempty existing then
      (TagDB.upsert_tags db url title0 existing (now i), api_quota_reached,
       [At i (Upsert url title0 existing)])
    else
      let cached_tags := TagDB.get_tags db url in
      if negb init_mode && bool_decide (cached_tags <> None) then
        (db, api_quota_reached, [])
      else if api_quota_reached then (db, api_quota_reached, [])
      else
        let '(page_title, content) := get_page_content i url in
        let final_title := if Py.truthy title0 then title0 else page_title in
        let head := [Say (MsgAnalysis (i + 1) total (Py.take 40 title0));
                     At i (Fetch url)] in
        if Py.truthy final_title || Py.truthy content then
          let '(said, r) := generator cl i final_title content in
          let call := At i (Generate final_title content) :: map Say said in
          match r with
          | Tags new_tags =>
              if Py.nonempty new_tags then
                (TagDB.upsert_tags db url final_title new_tags (now i),
                 api_quota_reached,
                 head ++ call ++ [Say (MsgGenerated new_tags);
                                  At i (Upsert url final_title new_tags);
                                  At i Sleep])
              else
                (db, api_quota_reached,
                 head ++ call ++ [Say MsgNoTags; At i Sleep])
          | QuotaReached =>
              (db, true, head ++ call ++ [Say MsgApiLimit; At i Sleep])
          end
        else (db, api_quota_reached, head ++ [Say MsgFetchFailed; At i Sleep]).

(** The loop from bookmark number [i] on. *)
Fixpoint phase1_loop (i : nat) (bookmarks : list node) (db : TagDB.t)
    (api_quota_reached : bool) : TagDB.t * bool * list event :=
  match bookmarks with
  | [] => (db, api_quota_reached, [])
  | n :: rest =>
      let '(db1, q1, e1) := phase1_body i n db api_quota_reached in
      let '(db2, q2, e2) := phase1_loop (S i) rest db1 q1 in
      (db2, q2, e1 ++ e2)
  end.

End Phase1.

(** [process_phase1(bookmarks, db, client, init_mode)]: the store afterwards
    and the trace. *)
Definition process_phase1 get_page_content generator now
    (bookmarks : list node) (db : TagDB.t) (cl : option client)
    (init_mode : bool) : TagDB.t * list event :=
  let '(db', _, evs) :=
    phase1_loop get_page_content generator now cl init_mode (length bookmarks)
      0 bookmarks db false in
  (db', Say (MsgPhase1 (length bookmarks)) :: evs).

(** ** Phase 2 *)

(** [process_phase2(node, db)]: the node after the in-place update. *)
Fixpoint process_phase2 (n : node) (db : TagDB.t) : node :=
  let tags1 :=
    if is_place n then
      let url := get_or_empty (uri n) in
      if Py.startswith url "http" then
        match TagDB.get_tags db url with
        | Some cached_tags_val =>
            if Py.truthy cached_tags_val then Some cached_tags_val else tags n
        | None => tags n
        end
      else tags n
    else tags n in
  let children1 :=
    match children n with
    | Some cs => Some (map (fun child => process_phase2 child db) cs)
    | None => None
    end in
  Node (type n) (uri n) (title n) tags1 children1 (others n).

(** ** The program: [main] *)

(** The file named by the constant [DB_FILE]. *)
Definition DB_FILE : string := "keyword_cache.db".

(** What [main] can see and change outside the process: the text files by
    path, the database file [DB_FILE] (absent or holding a table; kept apart
    from the text files) and the environment variable. *)
Record world := World {
  files : gmap string string;
  cache : option TagDB.t;
  GEMINI_API_KEY : option string
}.

(** How [main] ends. [Crashed]: [json.load] raised. *)
Inductive outcome :=
  | FileNotFound
  | NoCredential
  | Crashed
  | Completed.

(** A finished run: the world afterwards, the trace, and the tree [data]
    held in memory when [main] ends (none when nothing was loaded). *)
Record run := Run {
  ended : outcome;
  final : world;
  trace : list event;
  data : option node
}.

Section Main.

Variable get_page_content : nat -> string -> string * string.
Variable now : nat -> string.
Variable genai_Client : string -> client.

(** [json.load] on a file's text ([None] when it raises) and [json.dump]. *)
Variable json_load : string -> option node.
Variable json_dump : node -> string.

(** [main()] with the module-level name [generate_tags] bound to
    [generator]; [input_file] and [init] are the parsed arguments. *)
Definition main_with
    (generator : option client -> nat -> string -> string ->
                 list message * generated)
    (w : world) (input_file : string) (init : bool) : run :=
  let input_path := input_file in
  let temp_path := (input_path +:+ ".temp")%string in
  match files w !! input_path with
  | None =>
      {| ended := FileNotFound; final := w;
         trace := [Say (MsgFileNotFound input_path)]; data := None |}
  | Some contents =>
      let files1 := <[temp_path := contents]> (files w) in
      let w1 := {| files := files1; cache := cache w;
                   GEMINI_API_KEY := GEMINI_API_KEY w |} in
      let said1 := [Say (MsgWorkingOnCopy temp_path)] in
      match files1 !! temp_path ≫= json_load with
      | None =>
          {| ended := Crashed; final := w1; trace := said1; data := None |}
      | Some data0 =>
          let all_bookmarks_list := collect_bookmarks data0 [] in
          let db := TagDB.create_table (cache w) in
          let '(said2, cl) := setup_gemini genai_Client (GEMINI_API_KEY w) in
          match cl with
          | None =>
              {| ended := NoCredential;
                 final := {| files := files1; cache := Some db;
                             GEMINI_API_KEY := GEMINI_API_KEY w |};
                 trace := said1 ++ map Say said2;
                 data := Some data0 |}
          | Some _ =>
              let '(db1, evs) :=
                process_phase1 get_page_content generator now
                  all_bookmarks_list db cl init in
              let data1 := process_phase2 data0 db1 in
              let files2 := <[input_path := json_dump data1]> files1 in
              let files3 := delete temp_path files2 in
              {| ended := Completed;
                 final := {| files := files3; cache := Some db1;
                             GEMINI_API_KEY := GEMINI_API_KEY w |};
                 trace := said1 ++ map Say said2 ++ evs
                          ++ [Say MsgPhase2; Say (MsgSaving input_path);
                              Say MsgComplete];
                 data := Some data1 |}
          end
      end
  end.

(** The program as written. *)
Definition main : world -> string -> bool -> run := main_with generate_tags.

End Main.

(** ** Vocabulary of the statements *)

(** The nodes of a tree, parents before children, children in array
    order. *)
Fixpoint preorder (n : node) : list node :=
  n :: match children n with
       | Some cs => concat (map preorder cs)
       | None => []
       end.

(** A tree with the key [tags] dropped from every node: all that Phase 2 has
    no business changing. *)
Fixpoint erase_tags (n : node) : node :=
  Node (type n) (uri n) (title n) None
    (match children n with
     | Some cs => Some (map erase_tags cs)
     | None => None
     end)
    (others n).

(** A sequence of upserts, oldest first: (url, title, tag-list, time). *)
Definition upsert_all (db : TagDB.t)
    (calls : list (string * string * list string * string)) : TagDB.t :=
  fold_left (fun d '(u, ti, ta, no) => TagDB.upsert_tags d u ti ta no) calls db.

(** The calls a trace records for bookmark number [j], in order. *)
Fixpoint actions_at (j : nat) (evs : list event) : list action :=
  match evs with
  | [] => []
  | Say _ :: rest => actions_at j rest
  | At i a :: rest =>
      if Nat.eqb i j then a :: actions_at j rest else actions_at j rest
  end.

(** An event of the turn for a bookmark numbered within [lo, hi). *)
Definition index_in (lo hi : nat) (e : event) : Prop :=
  match e with
  | Say _ => True
  | At k _ => lo <= k < hi
  end.

(** Branch 1 alone: the upsert of the manual tags, outside refresh mode. *)
Definition manual_sync (init_mode : bool) (n : node) : list action :=
  let url := get_or_empty (uri n) in
  if Py.startswith url "http" && negb init_mode
     && Py.nonempty (existing_tags n)
  then [Upsert url (get_or_empty (title n)) (existing_tags n)]
  else [].

(** The store after branch 1 alone, for bookmark [i]. *)
Definition sync_store (now : nat -> string) (init_mode : bool) (i : nat)
    (n : node) (db : TagDB.t) : TagDB.t :=
  let url := get_or_empty (uri n) in
  if Py.startswith url "http" && negb init_mode
     && Py.nonempty (existing_tags n)
  then TagDB.upsert_tags db url (get_or_empty (title n)) (existing_tags n) (now i)
  else db.

Definition is_call (a : action) : bool :=
  match a with
  | Fetch _ | Generate _ _ => true
  | Upsert _ _ _ | Sleep => false
  end.

(** The environment variable is unset or empty. *)
Definition credential_missing (w : world) : Prop :=
  GEMINI_API_KEY w = None \/ GEMINI_API_KEY w = Some EmptyString.

(** ** Sample inputs *)

Module Sample.

Definition bookmark (u ti ta : string) : node :=
  Node (Some "text/x-moz-place") (Some u) (Some ti) (Some ta) None [].

Definition folder (ti : string) (cs : list node) : node :=
  Node (Some "text/x-moz-place-container") None (Some ti) None (Some cs) [].

(** A query bookmark as browsers export them: a place whose uri is no web
    address. *)
Definition smart : node := bookmark "place:sort=8&maxResults=10" "Most Visited" "".

Definition a_test : node := bookmark "http://a.test" "" "".

Definition menu : node := folder "menu" [a_test].

Definition old_row : TagDB.row :=
  {| TagDB.title := "Old"; TagDB.tags := "x"; TagDB.updated_at := "t0" |}.

Definition one_row : TagDB.t := {[ "http://a.test" := old_row ]}.

Definition empty_row : TagDB.row :=
  {| TagDB.title := "A"; TagDB.tags := ""; TagDB.updated_at := "t0" |}.

(** Two bookmarks of one page, filed with different manual tags. *)
Definition first : node := bookmark "http://a.test" "A" "x".
Definition second : node := bookmark "http://a.test" "A" "y".
Definition twice : list node := [first; second].

(** A page that cannot be fetched. *)
Definition no_page : nat -> string -> string * string :=
  fun _ _ => (EmptyString, EmptyString).

(** A page with a title. *)
Definition a_page : nat -> string -> string * string :=
  fun _ _ => ("A page", EmptyString).

(** A generator that answers [["foo"; "bar"]] to everything. *)
Definition foo_bar : option client -> nat -> string -> string ->
                     list message * generated :=
  fun _ _ _ _ => ([], Tags ["foo"; "bar"]).

(** A generator whose quota is used up. *)
Definition exhausted : option client -> nat -> string -> string ->
                       list message * generated :=
  fun _ _ _ _ => ([MsgQuotaWarning], QuotaReached).

Definition clock : nat -> string := fun _ => "2026-01-01T00:00:00".

Definition some_client : client := fun _ _ => Text "foo, bar".

(** A bookmark with a title and no tags, then one with manual tags. *)
Definition b_test : node := bookmark "http://b.test" "B" "".
Definition c_test : node := bookmark "http://c.test" "C" "manual1,manual2".
Definition three : list node := [b_test; c_test; a_test].

(** The leaf of the end-to-end example with its [tags] and whatever other
    keys it carries. *)
Definition leaf (tags0 : string) (o : list (string * string)) : node :=
  Node (Some "text/x-moz-place") (Some "http://a.test") (Some "") (Some tags0)
    None o.

(** A parser and a printer for the one document of the samples. *)
Definition load_menu : string -> option node := fun _ => Some menu.
Definition dump : node -> string := fun _ => "saved".
Definition connect : string -> client := fun _ => some_client.

(** The bookmarks file is there; the database file is not. *)
Definition with_key : world :=
  {| files := {[ "bookmarks.json" := "exported" ]}; cache := None;
     GEMINI_API_KEY := Some "secret" |}.

Definition without_key : world :=
  {| files := {[ "bookmarks.json" := "exported" ]}; cache := None;
     GEMINI_API_KEY := None |}.

End Sample.

(** ** The page fetch: [get_page_content] *)

Module Http.

(** What [requests.get] and the parse of the page come to: an exception
    somewhere inside the [try], or a response with its status code, the text
    of [soup.title.string] (none without a title tag or without a single
    string in it) and the text of every [p] element in document order. *)
Inductive result :=
  | Failed
  | Response (status_code : nat) (title_string : option string)
             (paragraphs : list string).

(** [get_page_content(url)], the answer to the request made for bookmark
    [i] being [requests_get i url]. *)
Definition get_page_content (requests_get : nat -> string -> result) (i : nat)
    (url : string) : string * string :=
  match requests_get i url with
  | Failed => (EmptyString, EmptyString)
  | Response status_code title_string paragraphs =>
      if Nat.eqb status_code 200 then
        let title0 :=
          match title_string with
          | Some s => if Py.truthy s then Py.strip s else EmptyString
          | None => EmptyString
          end in
        let text := Py.join " " (firstn 5 paragraphs) in
        (title0, Py.take 1000 text)
      else (EmptyString, EmptyString)
  end.

End Http.

(** ** Vocabulary of the further statements *)

(** Branch 4 for bookmark [j]: the fetch, the generation call if there is a
    title or a text, the upsert if tags came back, and the pause. *)
Definition generation_turn (get_page_content : nat -> string -> string * string)
    (generator : option client -> nat -> string -> string ->
                 list message * generated)
    (cl : option client) (j : nat) (n : node) : list action :=
  let url := get_or_empty (uri n) in
  let title0 := get_or_empty (title n) in
  let page := get_page_content j url in
  let final_title := if Py.truthy title0 then title0 else page.1 in
  if Py.truthy final_title || Py.truthy page.2 then
    Fetch url :: Generate final_title page.2 ::
    match (generator cl j final_title page.2).2 with
    | Tags new_tags =>
        if Py.nonempty new_tags then [Upsert url final_title new_tags; Sleep]
        else [Sleep]
    | QuotaReached => [Sleep]
    end
  else [Fetch url; Sleep].

(** The store after the manual tags of a list of bookmarks were synced, the
    first bookmark being number [i]. *)
Fixpoint sync_all (now : nat -> string) (init_mode : bool) (i : nat)
    (bookmarks : list node) (db : TagDB.t) : TagDB.t :=
  match bookmarks with
  | [] => db
  | n :: rest => sync_all now init_mode (S i) rest (sync_store now init_mode i n db)
  end.

(** The store after the upserts a trace records, in order. *)
Fixpoint replay (now : nat -> string) (evs : list event) (db : TagDB.t)
    : TagDB.t :=
  match evs with
  | [] => db
  | At i (Upsert url title0 tags_list) :: rest =>
      replay now rest (TagDB.upsert_tags db url title0 tags_list (now i))
  | _ :: rest => replay now rest db
  end.

(** No row holds an empty tag string. *)
Definition no_empty_tags (db : TagDB.t) : Prop :=
  forall url r, db !! url = Some r -> TagDB.tags r <> EmptyString.

(** * Properties *)

(** ** The string operations and the generator on small inputs *)

Example split_keeps_empty_fields :
  Py.split "," "a, b ,,c " = ["a"; " b "; ""; "c "]%string.
Proof. reflexivity. Qed.

Example parse_tags_trims_and_drops : parse_tags "a, b ,,c " = ["a"; "b"; "c"]%string.
Proof. reflexivity. Qed.

Example parse_tags_of_nothing : parse_tags "" = [].
Proof. reflexivity. Qed.

Example generate_tags_parses_reply :
  generate_tags (Some Sample.some_client) 0 "t" "c" = ([], Tags ["foo"; "bar"]%string).
Proof. reflexivity. Qed.

Example generate_tags_signals_quota :
  generate_tags (Some (fun _ _ => Raise "429 RESOURCE_EXHAUSTED")) 0 "t" "c"
  = ([MsgQuotaWarning], QuotaReached).
Proof. reflexivity. Qed.

Example generate_tags_swallows_other_errors :
  generate_tags (Some (fun _ _ => Raise "timed out")) 0 "t" "c"
  = ([MsgApiError "timed out"], Tags []).
Proof. reflexivity. Qed.

Example generate_tags_without_client : generate_tags None 0 "t" "c" = ([], Tags []).
Proof. reflexivity. Qed.

(** ** The tag cache *)

Lemma get_tags_upsert_eq (db : TagDB.t) url ti ta no :
  TagDB.get_tags (TagDB.upsert_tags db url ti ta no) url = Some (Py.join "," ta).
Proof.
  unfold TagDB.get_tags, TagDB.upsert_tags.
  destruct (db !! url); by rewrite lookup_insert_eq.
Qed.

Lemma lookup_upsert_ne (db : TagDB.t) url url' ti ta no :
  url <> url' -> TagDB.upsert_tags db url ti ta no !! url' = db !! url'.
Proof.
  intros Hne. unfold TagDB.upsert_tags.
  destruct (db !! url); by rewrite lookup_insert_ne.
Qed.

Lemma get_tags_upsert_ne (db : TagDB.t) url url' ti ta no :
  url <> url' ->
  TagDB.get_tags (TagDB.upsert_tags db url ti ta no) url' = TagDB.get_tags db url'.
Proof. intros Hne. unfold TagDB.get_tags. by rewrite lookup_upsert_ne. Qed.

Lemma get_tags_upsert_all_others (calls : list (string * string * list string * string)) :
  forall (db : TagDB.t) url,
    Forall (fun c => c.1.1.1 <> url) calls ->
    TagDB.get_tags (upsert_all db calls) url = TagDB.get_tags db url.
Proof.
  induction calls as [|[[[u ti] ta] no] calls IH]; intros db url Hall; [done|].
  inversion Hall as [|? ? Hne Hrest]; subst. simpl in Hne.
  unfold upsert_all in *. simpl. rewrite IH by done.
  by apply get_tags_upsert_ne.
Qed.

(** C3: after [upsert_tags url title tags], [get_tags url] returns the
    comma-joined tag-list; the value stays through any upserts made for other
    urls; and the next upsert for the same url replaces it whole, whatever
    was stored before. *)
Theorem get_after_upsert (db : TagDB.t) (url ti : string) (ta : list string)
    (no : string) :
  TagDB.get_tags (TagDB.upsert_tags db url ti ta no) url = Some (Py.join "," ta)
  /\ (forall calls,
        Forall (fun c => c.1.1.1 <> url) calls ->
        TagDB.get_tags (upsert_all (TagDB.upsert_tags db url ti ta no) calls) url
        = Some (Py.join "," ta))
  /\ (forall calls ti' ta' no',
        Forall (fun c => c.1.1.1 <> url) calls ->
        TagDB.get_tags
          (TagDB.upsert_tags
             (upsert_all (TagDB.upsert_tags db url ti ta no) calls)
             url ti' ta' no') url
        = Some (Py.join "," ta')).
Proof.
  split; [apply get_tags_upsert_eq|]. split.
  - intros calls Hall. rewrite get_tags_upsert_all_others by done.
    apply get_tags_upsert_eq.
  - intros. apply get_tags_upsert_eq.
Qed.

Lemma get_after_upsert_witness :
  TagDB.get_tags
    (upsert_all (TagDB.upsert_tags Sample.one_row "http://a.test" "A" ["foo"; "bar"] "t1")
       [("http://b.test", "B", ["baz"], "t2")]) "http://a.test"
  = Some "foo,bar".
Proof.
  apply (proj1 (proj2 (get_after_upsert Sample.one_row "http://a.test" "A"
                         ["foo"; "bar"] "t1"))).
  repeat constructor. simpl. discriminate.
Defined.

(** C7, as the code has it: on a url that already has a row, [upsert_tags]
    assigns the tag-list and the timestamp and keeps the title the row was
    first inserted with; every other row is left as it was. *)
Theorem upsert_existing_row (db : TagDB.t) (url ti : string) (ta : list string)
    (no : string) (r : TagDB.row) :
  db !! url = Some r ->
  TagDB.upsert_tags db url ti ta no !! url
  = Some {| TagDB.title := TagDB.title r; TagDB.tags := Py.join "," ta;
            TagDB.updated_at := no |}
  /\ forall url', url <> url' ->
       TagDB.upsert_tags db url ti ta no !! url' = db !! url'.
Proof.
  intros Hr. split.
  - unfold TagDB.upsert_tags. rewrite Hr. by rewrite lookup_insert_eq.
  - intros. by apply lookup_upsert_ne.
Qed.

Lemma upsert_existing_row_witness :
  TagDB.upsert_tags Sample.one_row "http://a.test" "New" ["y"] "t1" !! "http://a.test"
  = Some {| TagDB.title := "Old"; TagDB.tags := "y"; TagDB.updated_at := "t1" |}.
Proof.
  refine (proj1 (upsert_existing_row Sample.one_row "http://a.test" "New" ["y"] "t1"
                   Sample.old_row _)).
  reflexivity.
Defined.

(** C7 as stated fails: the row for ["http://a.test"] holds the title
    ["Old"]; after an upsert with the title ["New"] the stored title is still
    ["Old"]. *)
Lemma upsert_title_not_replaced :
  Sample.one_row !! "http://a.test" = Some Sample.old_row
  /\ TagDB.title <$>
       (TagDB.upsert_tags Sample.one_row "http://a.test" "New" ["y"] "t1"
          !! "http://a.test") = Some "Old"
  /\ TagDB.upsert_tags Sample.one_row "http://a.test" "New" ["y"] "t1"
       !! "http://a.test"
     <> Some {| TagDB.title := "New"; TagDB.tags := "y"; TagDB.updated_at := "t1" |}.
Proof.
  split; [reflexivity|]. split; [reflexivity|].
  vm_compute. discriminate.
Qed.

(** ** The tree walker *)

(** Induction on a tree: a node's children satisfy the property. *)
Lemma node_induction (P : node -> Prop) :
  (forall ty u ti ta o, P (Node ty u ti ta None o)) ->
  (forall ty u ti ta cs o, Forall P cs -> P (Node ty u ti ta (Some cs) o)) ->
  forall n, P n.
Proof.
  intros Hleaf Hnode. fix IH 1. intros [ty u ti ta [cs|] o].
  - apply Hnode. induction cs as [|c cs IHcs]; constructor; [apply IH | exact IHcs].
  - apply Hleaf.
Qed.

Lemma taggable_is_place n : taggable n = true -> is_place n = true.
Proof. unfold taggable. by intros [? _]%andb_true_iff. Qed.

Lemma filter_taggable_places (l : list node) :
  List.filter taggable (List.filter is_place l) = List.filter taggable l.
Proof.
  induction l as [|n l IH]; [done|]. simpl.
  destruct (is_place n) eqn:Hp; simpl.
  - by rewrite IH.
  - rewrite IH. destruct (taggable n) eqn:Ht; [|done].
    apply taggable_is_place in Ht. congruence.
Qed.

Lemma collect_bookmarks_preorder n :
  forall bucket,
    collect_bookmarks n bucket = bucket ++ List.filter is_place (preorder n).
Proof.
  induction n as [ty u ti ta o | ty u ti ta cs o IH] using node_induction;
    intros bucket; simpl.
  - destruct (is_place _); [done | by rewrite app_nil_r].
  - set (m := Node ty u ti ta (Some cs) o).
    assert (Hcs : forall b,
      (fix each (cs0 : list node) (b0 : list node) {struct cs0} : list node :=
         match cs0 with
         | [] => b0
         | child :: rest => each rest (collect_bookmarks child b0)
         end) cs b
      = b ++ List.filter is_place (concat (map preorder cs))).
    { induction IH as [|c cs Hc _ IHcs]; intros b; simpl.
      - by rewrite app_nil_r.
      - rewrite IHcs, Hc, List.filter_app. by rewrite <- app_assoc. }
    rewrite Hcs. destruct (is_place m); [by rewrite <- app_assoc | done].
Qed.

(** C6, as the code has it: [collect_bookmarks] appends to the bucket exactly
    the nodes whose type is the bookmark-place type, whatever their uri, each
    before the nodes below it and siblings in array order; keeping the ones
    with an http uri afterwards gives exactly the taggable leaves in
    pre-order; and a second collection over the same tree appends the same
    sequence again. *)
Theorem collect_bookmarks_places (n : node) (bucket : list node) :
  collect_bookmarks n bucket = bucket ++ List.filter is_place (preorder n)
  /\ List.filter taggable (collect_bookmarks n [])
     = List.filter taggable (preorder n)
  /\ collect_bookmarks n (collect_bookmarks n [])
     = collect_bookmarks n [] ++ collect_bookmarks n [].
Proof.
  split; [apply collect_bookmarks_preorder|]. split.
  - rewrite collect_bookmarks_preorder. simpl. apply filter_taggable_places.
  - rewrite (collect_bookmarks_preorder n (collect_bookmarks n [])).
    by rewrite (collect_bookmarks_preorder n []).
Qed.

(** C6 as stated fails: a query bookmark has the place type and a uri that is
    no web address; it is not a taggable leaf, and it is collected. *)
Lemma collect_takes_non_http_place :
  taggable Sample.smart = false
  /\ collect_bookmarks Sample.smart [] = [Sample.smart]
  /\ ~ (forall n x, In x (collect_bookmarks n []) -> taggable x = true).
Proof.
  split; [reflexivity|]. split; [reflexivity|].
  intros H. specialize (H Sample.smart Sample.smart (or_introl eq_refl)).
  discriminate H.
Qed.

(** ** Phase 2 *)

Lemma process_phase2_taggable n db : taggable (process_phase2 n db) = taggable n.
Proof. by destruct n. Qed.

Lemma preorder_process_phase2 db n :
  preorder (process_phase2 n db) = map (fun m => process_phase2 m db) (preorder n).
Proof.
  induction n as [ty u ti ta o | ty u ti ta cs o IH] using node_induction.
  - done.
  - cbn [process_phase2 preorder children map]. f_equal.
    induction IH as [|c cs Hc _ IHcs]; [done|].
    cbn [map concat]. rewrite map_app. by f_equal.
Qed.

Lemma erase_tags_process_phase2 db n :
  erase_tags (process_phase2 n db) = erase_tags n.
Proof.
  induction n as [ty u ti ta o | ty u ti ta cs o IH] using node_induction.
  - done.
  - cbn [process_phase2 erase_tags children type uri title others]. do 2 f_equal.
    induction IH as [|c cs Hc _ IHcs]; [done|].
    cbn [map]. by f_equal.
Qed.

(** C4: Phase 2 keeps the shape of the tree and every key of every node
    other than [tags]; on a taggable leaf whose url has no row, or a row with
    an empty tag string, [tags] stays as it was (absent stays absent); where
    the stored string is non-empty, [tags] becomes that string; and [tags]
    changes nowhere else. *)
Theorem process_phase2_frame (t : node) (db : TagDB.t) :
  preorder (process_phase2 t db) = map (fun m => process_phase2 m db) (preorder t)
  /\ erase_tags (process_phase2 t db) = erase_tags t
  /\ forall n : node,
       let url := get_or_empty (uri n) in
       (taggable n = true ->
        TagDB.get_tags db url = None \/ TagDB.get_tags db url = Some EmptyString ->
        tags (process_phase2 n db) = tags n)
       /\ (forall v, taggable n = true -> TagDB.get_tags db url = Some v ->
                     v <> EmptyString -> tags (process_phase2 n db) = Some v)
       /\ (tags (process_phase2 n db) <> tags n ->
           taggable n = true /\
           exists v, TagDB.get_tags db url = Some v /\ v <> EmptyString
                     /\ tags (process_phase2 n db) = Some v).
Proof.
  split; [apply preorder_process_phase2|].
  split; [apply erase_tags_process_phase2|].
  intros [ty u ti ta cs o] url. unfold taggable, has_http_uri.
  cbn [process_phase2 tags uri] in *. fold url.
  destruct (is_place _); cbn [andb];
    [|split; [done|split; [done|by intros []]]].
  destruct (Py.startswith url "http");
    [|split; [done|split; [done|by intros []]]].
  destruct (TagDB.get_tags db url) as [[|a v]|] eqn:Hget; cbn [Py.truthy].
  - split; [done|]. split; [intros ? _ [= <-] ?; done | by intros []].
  - split; [intros _ [|]; done|]. split; [by intros ? _ [= <-] _|].
    intros _. split; [done|]. by exists (String a v).
  - split; [done|]. split; [done | by intros []].
Qed.

(** ** Phase 1 *)

Lemma actions_at_app j e1 e2 :
  actions_at j (e1 ++ e2) = actions_at j e1 ++ actions_at j e2.
Proof.
  induction e1 as [|[m|i a] e1 IH]; simpl; [done|done|].
  destruct (Nat.eqb i j); simpl; by rewrite IH.
Qed.

Lemma actions_at_outside lo hi j evs :
  Forall (index_in lo hi) evs -> j < lo \/ hi <= j -> actions_at j evs = [].
Proof.
  induction 1 as [|[m|i a] evs He _ IH]; intros Hj; simpl; [done|by apply IH|].
  simpl in He. destruct (Nat.eqb_spec i j); [lia | by apply IH].
Qed.

Lemma actions_at_here j (l : list action) : actions_at j (map (At j) l) = l.
Proof. induction l; simpl; [done|]. rewrite Nat.eqb_refl. by f_equal. Qed.

Lemma index_in_weaken lo hi lo' hi' evs :
  lo' <= lo -> hi <= hi' ->
  Forall (index_in lo hi) evs -> Forall (index_in lo' hi') evs.
Proof.
  intros ? ? H. eapply Forall_impl; [exact H|].
  intros [m|k a]; simpl; [done|lia].
Qed.

Lemma index_in_says lo hi (said : list message) :
  Forall (index_in lo hi) (map Say said).
Proof. induction said; constructor; done. Qed.

Lemma In_says_At k a (said : list message) : ~ In (At k a) (map Say said).
Proof. induction said; simpl; [tauto|]. intros [|]; [discriminate|tauto]. Qed.

Section Phase1Facts.

Variable get_page_content : nat -> string -> string * string.
Variable generator : option client -> nat -> string -> string ->
                     list message * generated.
Variable now : nat -> string.
Variable cl : option client.
Variable init_mode : bool.
Variable total : nat.

Local Abbreviation body := (phase1_body get_page_content generator now cl init_mode total).
Local Abbreviation loop := (phase1_loop get_page_content generator now cl init_mode total).

Ltac body_cases :=
  unfold phase1_body;
  repeat match goal with
    | |- context [get_page_content ?i ?u] =>
        destruct (get_page_content i u) as [? ?] eqn:?
    | |- context [generator ?c ?i ?t ?s] =>
        destruct (generator c i t s) as [? [?|]] eqn:?
    | |- context [if ?b then _ else _] => destruct b eqn:?
    end.

Lemma body_index i n db q : Forall (index_in i (S i)) (body i n db q).2.
Proof.
  body_cases; cbn [snd];
    repeat first [apply Forall_nil_2 | apply Forall_cons_2 | apply Forall_app_2
                 | apply index_in_says];
    simpl; done || lia.
Qed.

Lemma loop_index l : forall i db q,
  Forall (index_in i (i + length l)) (loop i l db q).2.
Proof.
  induction l as [|n l IH]; intros i db q; simpl; [constructor|].
  pose proof (body_index i n db q) as Hb.
  destruct (body i n db q) as [[db1 q1] e1].
  specialize (IH (S i) db1 q1).
  destruct (loop (S i) l db1 q1) as [[db2 q2] e2]. simpl in *.
  apply Forall_app_2.
  - eapply index_in_weaken; [| |exact Hb]; lia.
  - eapply index_in_weaken; [| |exact IH]; lia.
Qed.

Lemma loop_app l1 l2 : forall i db q,
  loop i (l1 ++ l2) db q
  = let s1 := loop i l1 db q in
    let s2 := loop (i + length l1) l2 s1.1.1 s1.1.2 in
    (s2.1.1, s2.1.2, s1.2 ++ s2.2).
Proof.
  induction l1 as [|n l1 IH]; intros i db q; simpl.
  - rewrite Nat.add_0_r. by destruct (loop i l2 db q) as [[? ?] ?].
  - destruct (body i n db q) as [[db1 q1] e1].
    rewrite IH. cbn zeta. replace (i + S (length l1)) with (S i + length l1) by lia.
    destruct (loop (S i) l1 db1 q1) as [[db2 q2] e2]. cbn [fst snd].
    by rewrite app_assoc.
Qed.

(** The run cut at bookmark [j]: the turns before, that turn, the turns
    after. *)
Lemma loop_at l j n db q :
  l !! j = Some n ->
  loop 0 l db q
  = let s1 := loop 0 (take j l) db q in
    let s2 := body j n s1.1.1 s1.1.2 in
    let s3 := loop (S j) (drop (S j) l) s2.1.1 s2.1.2 in
    (s3.1.1, s3.1.2, s1.2 ++ s2.2 ++ s3.2).
Proof.
  intros Hj. rewrite <- (take_drop_middle l j n Hj) at 1.
  rewrite loop_app. simpl.
  assert (Hlen : length (take j l) = j).
  { apply length_take_le. apply lookup_lt_Some in Hj. lia. }
  rewrite Hlen.
  destruct (loop 0 (take j l) db q) as [[db1 q1] e1]. simpl.
  destruct (body j n db1 q1) as [[db2 q2] e2]. simpl.
  by destruct (loop (S j) (drop (S j) l) db2 q2) as [[db3 q3] e3].
Qed.

(** The calls recorded for bookmark [j] are those of its own turn. *)
Lemma actions_at_loop l j n db q :
  l !! j = Some n ->
  let s1 := loop 0 (take j l) db q in
  actions_at j (loop 0 l db q).2 = actions_at j (body j n s1.1.1 s1.1.2).2.
Proof.
  intros Hj. rewrite (loop_at l j n db q Hj). cbn zeta. cbn [snd].
  rewrite !actions_at_app.
  set (s1 := loop 0 (take j l) db q).
  set (s2 := body j n s1.1.1 s1.1.2).
  assert (H1 : actions_at j s1.2 = []).
  { apply (actions_at_outside 0 (0 + length (take j l))); [apply loop_index|].
    right. rewrite length_take. lia. }
  assert (H3 : actions_at j (loop (S j) (drop (S j) l) s2.1.1 s2.1.2).2 = []).
  { apply (actions_at_outside (S j) (S j + length (drop (S j) l)));
      [apply loop_index | lia]. }
  by rewrite H1, H3, app_nil_r.
Qed.

(** With the flag set, a turn is branch 1 or nothing. *)
Lemma body_exhausted i n db :
  body i n db true
  = (sync_store now init_mode i n db, true, map (At i) (manual_sync init_mode n)).
Proof.
  unfold phase1_body, sync_store, manual_sync.
  destruct (Py.startswith _ _); cbn [negb andb]; [|done].
  destruct (negb init_mode && Py.nonempty (existing_tags n)); cbn [map]; [done|].
  by destruct (negb init_mode && bool_decide _).
Qed.

Lemma loop_flag_true l : forall i db, (loop i l db true).1.2 = true.
Proof.
  induction l as [|n l IH]; intros i db; simpl; [done|].
  rewrite body_exhausted. specialize (IH (S i) (sync_store now init_mode i n db)).
  by destruct (loop (S i) l _ true) as [[? ?] ?].
Qed.

(** A generation call that signalled the quota leaves the flag set. *)
Lemma body_quota_signal i n db q k ft c :
  In (At k (Generate ft c)) (body i n db q).2 ->
  (generator cl k ft c).2 = QuotaReached ->
  (body i n db q).1.2 = true.
Proof.
  intros Hin Hq. revert Hin. body_cases; cbn [fst snd]; try done;
    intros Hin; exfalso;
    repeat (rewrite ?in_app_iff in Hin; simpl in Hin);
    repeat match goal with
      | H : _ \/ _ |- _ => destruct H
      | H : False |- _ => destruct H
      | H : In (At _ _) (map Say _) |- _ => by apply In_says_At in H
      | H : Say _ = At _ _ |- _ => discriminate H
      | H : At _ _ = At _ _ |- _ => injection H as ? ?; simplify_eq
      end;
    try discriminate;
    match goal with
    | H : generator _ _ _ _ = _ |- _ => rewrite H in Hq; discriminate Hq
    end.
Qed.

Lemma loop_quota_signal l k ft c : forall i db q,
  In (At k (Generate ft c)) (loop i l db q).2 ->
  (generator cl k ft c).2 = QuotaReached ->
  (loop i l db q).1.2 = true.
Proof.
  induction l as [|n l IH]; intros i db q Hin Hq; simpl in *; [done|].
  pose proof (body_quota_signal i n db q k ft c) as Hb.
  destruct (body i n db q) as [[db1 q1] e1].
  specialize (IH (S i) db1 q1).
  pose proof (loop_flag_true l (S i) db1) as Hmono.
  destruct (loop (S i) l db1 q1) as [[db2 q2] e2] eqn:Hl. simpl in *.
  apply in_app_iff in Hin as [Hin|Hin].
  - rewrite (Hb Hin Hq) in Hl. by rewrite Hl in Hmono.
  - by apply IH.
Qed.

(** Branch 1. *)
Lemma body_manual i n db q :
  init_mode = false ->
  Py.startswith (get_or_empty (uri n)) "http" = true ->
  existing_tags n <> [] ->
  body i n db q
  = (TagDB.upsert_tags db (get_or_empty (uri n)) (get_or_empty (title n))
       (existing_tags n) (now i), q,
     [At i (Upsert (get_or_empty (uri n)) (get_or_empty (title n))
              (existing_tags n))]).
Proof.
  intros -> Hhttp Hne. unfold phase1_body. rewrite Hhttp. cbn [negb andb].
  by destruct (existing_tags n).
Qed.

(** Branch 2. *)
Lemma body_cache_hit i n db q :
  init_mode = false ->
  Py.startswith (get_or_empty (uri n)) "http" = true ->
  existing_tags n = [] ->
  is_Some (db !! get_or_empty (uri n)) ->
  body i n db q = (db, q, []).
Proof.
  intros -> Hhttp Hnone [r Hr]. unfold phase1_body.
  rewrite Hhttp, Hnone. cbn [negb andb Py.nonempty].
  unfold TagDB.get_tags. rewrite Hr.
  by rewrite bool_decide_eq_true_2.
Qed.

Lemma upsert_keeps_records (db : TagDB.t) u url ti ta no :
  is_Some (db !! u) -> is_Some (TagDB.upsert_tags db url ti ta no !! u).
Proof.
  intros Hu. destruct (decide (url = u)) as [->|Hne].
  - unfold TagDB.upsert_tags. destruct (db !! u); rewrite lookup_insert_eq; eauto.
  - by rewrite lookup_upsert_ne.
Qed.

Lemma body_keeps_records i n (db : TagDB.t) q u :
  is_Some (db !! u) -> is_Some ((body i n db q).1.1 !! u).
Proof.
  intros Hu. body_cases; cbn [fst]; try done; by apply upsert_keeps_records.
Qed.

Lemma loop_keeps_records l u : forall i (db : TagDB.t) q,
  is_Some (db !! u) -> is_Some ((loop i l db q).1.1 !! u).
Proof.
  induction l as [|n l IH]; intros i db q Hu; simpl; [done|].
  pose proof (body_keeps_records i n db q u Hu) as Hb.
  destruct (body i n db q) as [[db1 q1] e1].
  specialize (IH (S i) db1 q1 Hb).
  by destruct (loop (S i) l db1 q1) as [[db2 q2] e2].
Qed.

(** Outside refresh mode a turn leaves the tag string stored for [url] as it
    is, unless the bookmark has that url and manual tags of its own. *)
Lemma body_keeps_tags i m db q url v :
  init_mode = false ->
  TagDB.get_tags db url = Some v ->
  (get_or_empty (uri m) = url ->
   existing_tags m = [] \/ Py.join "," (existing_tags m) = v) ->
  TagDB.get_tags (body i m db q).1.1 url = Some v.
Proof.
  intros -> Hv Hm. destruct (decide (get_or_empty (uri m) = url)) as [Heq|Hne].
  - destruct (Hm Heq) as [Hnone|Hsame].
    + unfold phase1_body. rewrite Hnone, Heq, Hv.
      cbn [negb andb Py.nonempty]. rewrite bool_decide_eq_true_2 by done.
      by destruct (negb _).
    + unfold phase1_body. rewrite Heq. cbn [negb andb].
      destruct (negb _); [done|].
      destruct (Py.nonempty (existing_tags m)); cbn [fst].
      * by rewrite get_tags_upsert_eq, Hsame.
      * rewrite Hv. by rewrite bool_decide_eq_true_2.
  - body_cases; cbn [fst]; try done; by rewrite get_tags_upsert_ne.
Qed.

Lemma loop_keeps_tags l url v : forall i db q,
  init_mode = false ->
  TagDB.get_tags db url = Some v ->
  Forall (fun m => get_or_empty (uri m) = url ->
                   existing_tags m = [] \/ Py.join "," (existing_tags m) = v) l ->
  TagDB.get_tags (loop i l db q).1.1 url = Some v.
Proof.
  induction l as [|m l IH]; intros i db q Hinit Hv Hall; simpl; [done|].
  apply Forall_cons in Hall as [Hm Hrest].
  pose proof (body_keeps_tags i m db q url v Hinit Hv Hm) as Hb.
  destruct (body i m db q) as [[db1 q1] e1].
  specialize (IH (S i) db1 q1 Hinit Hb Hrest).
  by destruct (loop (S i) l db1 q1) as [[db2 q2] e2].
Qed.

End Phase1Facts.

Lemma process_phase1_eq get_page_content generator now bookmarks db cl init_mode :
  process_phase1 get_page_content generator now bookmarks db cl init_mode
  = let s := phase1_loop get_page_content generator now cl init_mode
               (length bookmarks) 0 bookmarks db false in
    (s.1.1, Say (MsgPhase1 (length bookmarks)) :: s.2).
Proof. unfold process_phase1. by destruct (phase1_loop _ _ _ _ _ _ _ _ _ _) as [[? ?] ?]. Qed.

Lemma index_in_In lo hi evs k a :
  Forall (index_in lo hi) evs -> In (At k a) evs -> lo <= k < hi.
Proof.
  induction 1 as [|e evs He _ IH]; simpl; [tauto|].
  intros [->|Hin]; [exact He | by apply IH].
Qed.

(** C1: if the trace of Phase 1 holds a generation call for bookmark [i]
    that the generator answered with the quota signal, the flag is set at the
    end of the run and when any later bookmark [j] is reached; the turn of
    [j] is branch 1 alone (the upsert of its manual tags, outside refresh
    mode) or nothing, so the trace holds for [j] no fetch and no generation
    call, its manual tags are still written, and a cached url is still
    skipped. *)
Theorem quota_exhaustion_is_final get_page_content generator now cl init_mode
    (bookmarks : list node) (db : TagDB.t) (i : nat) (ft c : string) :
  let evs := (process_phase1 get_page_content generator now bookmarks db cl
                init_mode).2 in
  let loop := phase1_loop get_page_content generator now cl init_mode
                (length bookmarks) in
  In (At i (Generate ft c)) evs ->
  (generator cl i ft c).2 = QuotaReached ->
  (loop 0 bookmarks db false).1.2 = true
  /\ forall j n, i < j -> bookmarks !! j = Some n ->
       let reached := loop 0 (take j bookmarks) db false in
       reached.1.2 = true
       /\ phase1_body get_page_content generator now cl init_mode
            (length bookmarks) j n reached.1.1 reached.1.2
          = (sync_store now init_mode j n reached.1.1, true,
             map (At j) (manual_sync init_mode n))
       /\ actions_at j evs = manual_sync init_mode n
       /\ Forall (fun a => is_call a = false) (actions_at j evs).
Proof.
  intros evs loop Hin Hq. subst evs. rewrite process_phase1_eq in *.
  cbn zeta in Hin. cbn [snd] in *. fold loop in Hin |- *.
  destruct Hin as [Hin|Hin]; [discriminate|].
  split; [by eapply loop_quota_signal|].
  intros j n Hij Hj. set (reached := loop 0 (take j bookmarks) db false).
  assert (Hflag : reached.1.2 = true).
  { subst reached loop. eapply loop_quota_signal; [|exact Hq].
    rewrite (loop_at _ _ _ _ _ _ _ _ _ _ _ Hj) in Hin.
    cbn zeta in Hin. cbn [snd] in Hin.
    apply in_app_iff in Hin as [Hin|Hin]; [exact Hin|exfalso].
    apply in_app_iff in Hin as [Hin|Hin].
    - eapply index_in_In in Hin; [|apply body_index]. lia.
    - eapply index_in_In in Hin; [|apply loop_index]. lia. }
  assert (Hbody : phase1_body get_page_content generator now cl init_mode
            (length bookmarks) j n reached.1.1 reached.1.2
          = (sync_store now init_mode j n reached.1.1, true,
             map (At j) (manual_sync init_mode n))).
  { rewrite Hflag. apply body_exhausted. }
  assert (Hact : actions_at j (Say (MsgPhase1 (length bookmarks))
                               :: (loop 0 bookmarks db false).2)
                 = manual_sync init_mode n).
  { cbn [actions_at]. subst loop.
    rewrite (actions_at_loop _ _ _ _ _ _ _ _ _ _ _ Hj). cbn zeta.
    fold reached. rewrite Hbody. cbn [snd]. apply actions_at_here. }
  split; [exact Hflag|]. split; [exact Hbody|]. split; [exact Hact|].
  rewrite Hact. unfold manual_sync.
  destruct (_ && _); repeat constructor.
Qed.

Lemma quota_exhaustion_is_final_witness :
  actions_at 1
    (process_phase1 Sample.a_page Sample.exhausted Sample.clock Sample.three ∅
       (Some Sample.some_client) false).2
  = [Upsert "http://c.test" "C" ["manual1"; "manual2"]]
  /\ actions_at 2
       (process_phase1 Sample.a_page Sample.exhausted Sample.clock Sample.three ∅
          (Some Sample.some_client) false).2
     = [].
Proof.
  pose proof (quota_exhaustion_is_final Sample.a_page Sample.exhausted
                Sample.clock (Some Sample.some_client) false Sample.three ∅
                0 "B" EmptyString) as H.
  cbn zeta in H. destruct H as [_ H].
  - vm_compute. right; right; right; left; reflexivity.
  - reflexivity.
  - split.
    + destruct (H 1 Sample.c_test) as (_ & _ & Hact & _);
        [lia | reflexivity | exact Hact].
    + destruct (H 2 Sample.a_test) as (_ & _ & Hact & _);
        [lia | reflexivity | exact Hact].
Defined.

(** C2, as the code has it: outside refresh mode, the turn of a bookmark
    with an http uri and a non-empty manual tag-list is one upsert of exactly
    those tags with the node's title, with no fetch and no generation call;
    right after that turn the store returns the manual tags for the uri,
    whatever it held before; and it still does at the end of Phase 1 when no
    later bookmark of the same uri carries a different non-empty manual
    tag-list. *)
Theorem manual_tags_reach_store get_page_content generator now cl
    (bookmarks : list node) (db : TagDB.t) (i : nat) (n : node) :
  let r := process_phase1 get_page_content generator now bookmarks db cl false in
  let url := get_or_empty (uri n) in
  let body := phase1_body get_page_content generator now cl false
                (length bookmarks) in
  let reached := phase1_loop get_page_content generator now cl false
                   (length bookmarks) 0 (take i bookmarks) db false in
  bookmarks !! i = Some n ->
  Py.startswith url "http" = true ->
  existing_tags n <> [] ->
  actions_at i r.2 = [Upsert url (get_or_empty (title n)) (existing_tags n)]
  /\ TagDB.get_tags (body i n reached.1.1 reached.1.2).1.1 url
     = Some (Py.join "," (existing_tags n))
  /\ ((forall j m, i < j -> bookmarks !! j = Some m ->
         get_or_empty (uri m) = url ->
         existing_tags m = [] \/ existing_tags m = existing_tags n) ->
      TagDB.get_tags r.1 url = Some (Py.join "," (existing_tags n))).
Proof.
  intros r url body reached Hi Hhttp Hne.
  assert (Hbody : body i n reached.1.1 reached.1.2
                  = (TagDB.upsert_tags reached.1.1 url (get_or_empty (title n))
                       (existing_tags n) (now i), reached.1.2,
                     [At i (Upsert url (get_or_empty (title n)) (existing_tags n))])).
  { by apply body_manual. }
  subst r. rewrite process_phase1_eq. cbn zeta. cbn [fst snd actions_at].
  split; [|split].
  - rewrite (actions_at_loop _ _ _ _ _ _ _ _ _ _ _ Hi). cbn zeta.
    fold reached. fold body. rewrite Hbody. cbn [snd actions_at].
    by rewrite Nat.eqb_refl.
  - rewrite Hbody. cbn [fst]. apply get_tags_upsert_eq.
  - intros Hlater. rewrite (loop_at _ _ _ _ _ _ _ _ _ _ _ Hi). cbn zeta.
    fold reached. fold body. rewrite Hbody. cbn [fst snd].
    apply loop_keeps_tags; [done|apply get_tags_upsert_eq|].
    apply Forall_lookup. intros k m Hk Hm.
    rewrite lookup_drop in Hk.
    destruct (Hlater (S i + k) m) as [Hnone|Hsame]; [lia|done|done|by left|].
    right. by rewrite Hsame.
Qed.

Lemma manual_tags_reach_store_witness :
  TagDB.get_tags
    (process_phase1 Sample.no_page Sample.foo_bar Sample.clock Sample.three
       Sample.one_row (Some Sample.some_client) false).1 "http://c.test"
  = Some "manual1,manual2".
Proof.
  pose proof (manual_tags_reach_store Sample.no_page Sample.foo_bar Sample.clock
                (Some Sample.some_client) Sample.three Sample.one_row 1
                Sample.c_test) as H.
  cbn zeta in H. destruct H as (_ & _ & H); [reflexivity|reflexivity|discriminate|].
  apply H. intros [|[|[|j]]] m Hj Hm Hu; try lia.
  - injection Hm as <-. left. reflexivity.
  - discriminate Hm.
Defined.

(** C2 as stated fails: two bookmarks of ["http://a.test"], the first filed
    with the tag ["x"], the second with ["y"]; at the end of Phase 1 the store
    holds ["y"] for that url, not the first bookmark's manual tags. *)
Lemma later_duplicate_overrides_manual_tags :
  Sample.twice !! 0 = Some Sample.first
  /\ taggable Sample.first = true
  /\ existing_tags Sample.first = ["x"]
  /\ TagDB.get_tags
       (process_phase1 Sample.no_page Sample.foo_bar Sample.clock Sample.twice ∅
          (Some Sample.some_client) false).1 "http://a.test"
     = Some "y"
  /\ TagDB.get_tags
       (process_phase1 Sample.no_page Sample.foo_bar Sample.clock Sample.twice ∅
          (Some Sample.some_client) false).1 "http://a.test"
     <> Some (Py.join "," (existing_tags Sample.first)).
Proof.
  repeat split; try reflexivity. vm_compute. discriminate.
Qed.

(** C5: outside refresh mode, for a bookmark with an http uri and an empty
    manual tag-list whose url already has a row in the store (at the start of
    Phase 1 or when the bookmark is reached, and even a row with an empty tag
    string), the trace holds no call at all for that bookmark, so no fetch
    and no generation, and its turn leaves the store and the flag exactly as
    they were. *)
Theorem cache_hit_makes_no_call get_page_content generator now cl
    (bookmarks : list node) (db : TagDB.t) (i : nat) (n : node) :
  let r := process_phase1 get_page_content generator now bookmarks db cl false in
  let url := get_or_empty (uri n) in
  let reached := phase1_loop get_page_content generator now cl false
                   (length bookmarks) 0 (take i bookmarks) db false in
  bookmarks !! i = Some n ->
  Py.startswith url "http" = true ->
  existing_tags n = [] ->
  is_Some (db !! url) \/ is_Some (reached.1.1 !! url) ->
  actions_at i r.2 = []
  /\ phase1_body get_page_content generator now cl false (length bookmarks)
       i n reached.1.1 reached.1.2
     = (reached.1.1, reached.1.2, []).
Proof.
  intros r url reached Hi Hhttp Hnone Hrow.
  assert (Hrow' : is_Some (reached.1.1 !! url)).
  { destruct Hrow as [Hrow|Hrow]; [|done]. by apply loop_keeps_records. }
  assert (Hbody : phase1_body get_page_content generator now cl false
                    (length bookmarks) i n reached.1.1 reached.1.2
                  = (reached.1.1, reached.1.2, [])).
  { by apply body_cache_hit. }
  split; [|exact Hbody].
  subst r. rewrite process_phase1_eq. cbn zeta. cbn [snd actions_at].
  rewrite (actions_at_loop _ _ _ _ _ _ _ _ _ _ _ Hi). cbn zeta.
  fold reached. by rewrite Hbody.
Qed.

Lemma cache_hit_makes_no_call_witness :
  actions_at 0
    (process_phase1 Sample.a_page Sample.foo_bar Sample.clock [Sample.a_test]
       {[ "http://a.test" := Sample.empty_row ]} (Some Sample.some_client) false).2
  = [].
Proof.
  refine (proj1 (cache_hit_makes_no_call Sample.a_page Sample.foo_bar Sample.clock
                   (Some Sample.some_client) [Sample.a_test]
                   {[ "http://a.test" := Sample.empty_row ]} 0 Sample.a_test
                   _ _ _ _)).
  - reflexivity.
  - reflexivity.
  - reflexivity.
  - left. exists Sample.empty_row. reflexivity.
Defined.

(** ** The program *)

Lemma length_append (s1 s2 : string) :
  String.length (s1 +:+ s2) = String.length s1 + String.length s2.
Proof. induction s1 as [|c s1 IH]; simpl; [done | by rewrite IH]. Qed.

Lemma temp_path_differs (input_path : string) :
  (input_path +:+ ".temp")%string <> input_path.
Proof.
  intros H. apply (f_equal String.length) in H.
  rewrite length_append in H. simpl in H. lia.
Qed.

Lemma setup_gemini_missing genai_Client w :
  credential_missing w ->
  setup_gemini genai_Client (GEMINI_API_KEY w) = ([MsgNoApiKey], None).
Proof. by intros [-> | ->]. Qed.

Lemma setup_gemini_present genai_Client key :
  Py.truthy key = true ->
  setup_gemini genai_Client (Some key) = ([], Some (genai_Client key)).
Proof. intros H. unfold setup_gemini. by rewrite H. Qed.

Section MainFacts.

Variable get_page_content : nat -> string -> string * string.
Variable now : nat -> string.
Variable genai_Client : string -> client.
Variable json_load : string -> option node.
Variable json_dump : node -> string.
Variable generator : option client -> nat -> string -> string ->
                     list message * generated.

Local Abbreviation run_main :=
  (main_with get_page_content now genai_Client json_load json_dump generator).

(** C9: when the input file is missing or the credential is missing, [main]
    does not complete; the input file is as it was; the trace holds no call
    for any bookmark and neither phase's line; the tree in memory is the one
    that was loaded, if any; the rows of the database are as they were. With
    the file missing the only effect is the line saying so; with the
    credential missing and a readable document, [main] ends on the line
    saying the key is not set. *)
Theorem main_stops_before_phases (w : world) (input_file : string) (init : bool) :
  let r := run_main w input_file init in
  files w !! input_file = None \/ credential_missing w ->
  ended r <> Completed
  /\ files (final r) !! input_file = files w !! input_file
  /\ (forall i a, ~ In (At i a) (trace r))
  /\ (forall k, ~ In (Say (MsgPhase1 k)) (trace r))
  /\ ~ In (Say MsgPhase2) (trace r)
  /\ data r = files w !! input_file ≫= json_load
  /\ TagDB.create_table (cache (final r)) = TagDB.create_table (cache w)
  /\ (files w !! input_file = None ->
      ended r = FileNotFound /\ final r = w
      /\ trace r = [Say (MsgFileNotFound input_file)])
  /\ (forall contents t,
        files w !! input_file = Some contents -> json_load contents = Some t ->
        ended r = NoCredential
        /\ trace r = [Say (MsgWorkingOnCopy (input_file +:+ ".temp"));
                      Say MsgNoApiKey]).
Proof.
  intros r Hmiss. subst r. unfold main_with.
  destruct (files w !! input_file) as [contents|] eqn:Hin.
  - destruct Hmiss as [Hmiss|Hmiss]; [discriminate|].
    rewrite lookup_insert_eq. cbn [mbind option_bind].
    rewrite (setup_gemini_missing _ _ Hmiss).
    destruct (json_load contents) as [t|] eqn:Hload; cbn;
      rewrite lookup_insert_ne by apply temp_path_differs;
      repeat split; try done; intros; simplify_eq/=; try done;
      try (by destruct (cache w)); try (by intros [|[|[]]]); by intros [|[]].
  - cbn. repeat split; try done; intros; by intros [|[]].
Qed.

(** C10: with the credential missing and a readable document, [main] ends
    after the copy and after the database was opened: the working copy
    [input_file ++ ".temp"] holds the input's text and the database file
    exists, created empty if it was absent. Whenever the input file exists,
    the working copy is gone at the end exactly when [main] completed. *)
Theorem no_credential_leaves_copy_and_db (w : world) (input_file : string)
    (init : bool) (contents : string) :
  let r := run_main w input_file init in
  let temp_path := (input_file +:+ ".temp")%string in
  files w !! input_file = Some contents ->
  (files (final r) !! temp_path = None <-> ended r = Completed)
  /\ (forall t, credential_missing w -> json_load contents = Some t ->
        ended r = NoCredential
        /\ files (final r) !! temp_path = Some contents
        /\ cache (final r) = Some (TagDB.create_table (cache w))).
Proof.
  intros r temp_path Hin. subst r temp_path. unfold main_with. rewrite Hin.
  rewrite lookup_insert_eq. cbn [mbind option_bind]. split.
  - destruct (json_load contents) as [t|] eqn:Hload.
    + destruct (setup_gemini genai_Client (GEMINI_API_KEY w)) as [said [c|]].
      * destruct (process_phase1 _ _ _ _ _ _ _) as [db1 evs]. cbn.
        by rewrite lookup_delete_eq.
      * cbn. rewrite lookup_insert_eq. split; discriminate.
    + cbn. rewrite lookup_insert_eq. split; discriminate.
  - intros t Hmiss Hload. rewrite Hload.
    rewrite (setup_gemini_missing _ _ Hmiss). cbn.
    by rewrite lookup_insert_eq.
Qed.

End MainFacts.

Lemma main_stops_before_phases_witness :
  ended (main_with Sample.a_page Sample.clock Sample.connect Sample.load_menu
           Sample.dump Sample.foo_bar Sample.without_key "bookmarks.json" false)
  = NoCredential
  /\ ended (main_with Sample.a_page Sample.clock Sample.connect Sample.load_menu
              Sample.dump Sample.foo_bar Sample.with_key "missing.json" false)
     = FileNotFound.
Proof.
  split.
  - refine (proj1 (proj2 (proj2 (proj2 (proj2 (proj2 (proj2 (proj2 (proj2
      (main_stops_before_phases Sample.a_page Sample.clock Sample.connect
         Sample.load_menu Sample.dump Sample.foo_bar Sample.without_key
         "bookmarks.json" false _)))))))) "exported" Sample.menu _ _)).
    + right. left. reflexivity.
    + reflexivity.
    + reflexivity.
  - refine (proj1 (proj1 (proj2 (proj2 (proj2 (proj2 (proj2 (proj2 (proj2
      (main_stops_before_phases Sample.a_page Sample.clock Sample.connect
         Sample.load_menu Sample.dump Sample.foo_bar Sample.with_key
         "missing.json" false _)))))))) _)).
    + left. reflexivity.
    + reflexivity.
Defined.

Lemma no_credential_leaves_copy_and_db_witness :
  files (final (main_with Sample.a_page Sample.clock Sample.connect
                  Sample.load_menu Sample.dump Sample.foo_bar Sample.without_key
                  "bookmarks.json" false)) !! "bookmarks.json.temp"
  = Some "exported"
  /\ cache (final (main_with Sample.a_page Sample.clock Sample.connect
                     Sample.load_menu Sample.dump Sample.foo_bar
                     Sample.without_key "bookmarks.json" false))
     = Some ∅.
Proof.
  pose proof (no_credential_leaves_copy_and_db Sample.a_page Sample.clock
                Sample.connect Sample.load_menu Sample.dump Sample.foo_bar
                Sample.without_key "bookmarks.json" false "exported") as H.
  cbn zeta in H. destruct H as [_ H]; [reflexivity|].
  destruct (H Sample.menu) as (_ & Htemp & Hdb);
    [left; reflexivity | reflexivity |].
  split; [exact Htemp | exact Hdb].
Defined.

(** ** End to end *)

Lemma filter_taggable_http (l : list node) :
  List.filter taggable l = List.filter has_http_uri (List.filter is_place l).
Proof.
  induction l as [|n l IH]; [done|]. simpl. unfold taggable at 1.
  destruct (is_place n); simpl; [|done].
  destruct (has_http_uri n); by rewrite IH.
Qed.

Lemma filter_taggable_process_phase2 db (l : list node) :
  List.filter taggable (map (fun m => process_phase2 m db) l)
  = map (fun m => process_phase2 m db) (List.filter taggable l).
Proof.
  induction l as [|n l IH]; [done|]. simpl.
  rewrite process_phase2_taggable. destruct (taggable n); simpl; by rewrite IH.
Qed.

Section OneLeaf.

Variable get_page_content : nat -> string -> string * string.
Variable generator : option client -> nat -> string -> string ->
                     list message * generated.
Variable now : nat -> string.
Variable cl : option client.
Variable total : nat.
Variable o : list (string * string).

Hypothesis generator_stub :
  forall c i ti s, (generator c i ti s).2 = Tags ["foo"; "bar"].
Hypothesis page_found :
  forall i, Py.truthy (get_page_content i "http://a.test").1
            || Py.truthy (get_page_content i "http://a.test").2 = true.

Local Abbreviation body := (phase1_body get_page_content generator now cl false total).
Local Abbreviation loop := (phase1_loop get_page_content generator now cl false total).

Lemma body_skip i n db q : has_http_uri n = false -> body i n db q = (db, q, []).
Proof. unfold has_http_uri, phase1_body. by intros ->. Qed.

Lemma loop_skip_all l : forall i db q,
  List.filter has_http_uri l = [] -> loop i l db q = (db, q, []).
Proof.
  induction l as [|n l IH]; intros i db q Hnone; simpl in *; [done|].
  destruct (has_http_uri n) eqn:Hn; [discriminate|].
  by rewrite body_skip, IH.
Qed.

Lemma body_one_leaf i :
  (body i (Sample.leaf EmptyString o) ∅ false).1
  = ({[ "http://a.test" :=
          {| TagDB.title := (get_page_content i "http://a.test").1;
             TagDB.tags := "foo,bar"; TagDB.updated_at := now i |} ]}, false).
Proof.
  unfold phase1_body.
  change (get_or_empty (uri (Sample.leaf EmptyString o))) with "http://a.test".
  change (get_or_empty (title (Sample.leaf EmptyString o))) with EmptyString.
  change (existing_tags (Sample.leaf EmptyString o)) with (@nil string).
  change (Py.startswith "http://a.test" "http") with true.
  cbn [negb andb Py.nonempty Py.truthy].
  change (TagDB.get_tags ∅ "http://a.test") with (@None string).
  rewrite bool_decide_eq_false_2 by (intros H; by apply H).
  pose proof (page_found i) as Hpage.
  destruct (get_page_content i "http://a.test") as [page_title content].
  cbn [fst snd] in *. rewrite Hpage.
  pose proof (generator_stub cl i page_title content) as Hgen.
  destruct (generator cl i page_title content) as [said r].
  cbn [snd] in Hgen. subst r. cbn [Py.nonempty fst].
  unfold TagDB.upsert_tags.
  change ((∅ : TagDB.t) !! "http://a.test") with (@None TagDB.row).
  by rewrite insert_empty.
Qed.

Lemma loop_one_leaf l : forall i,
  List.filter has_http_uri l = [Sample.leaf EmptyString o] ->
  exists k,
    (loop i l ∅ false).1.1
    = {[ "http://a.test" :=
           {| TagDB.title := (get_page_content k "http://a.test").1;
              TagDB.tags := "foo,bar"; TagDB.updated_at := now k |} ]}.
Proof.
  induction l as [|n l IH]; intros i Hone; simpl in *; [discriminate|].
  destruct (has_http_uri n) eqn:Hn.
  - injection Hone as -> Hrest. exists i.
    pose proof (body_one_leaf i) as Hb.
    destruct (body i _ ∅ false) as [[db1 q1] e1]. injection Hb as -> ->.
    by rewrite loop_skip_all.
  - rewrite body_skip by done. destruct (IH (S i) Hone) as [k Hk]. exists k.
    by destruct (loop (S i) l ∅ false) as [[db2 q2] e2].
Qed.

End OneLeaf.

(** C8, as the code has it: for a tree whose only taggable leaf is
    [{uri: "http://a.test", title: "", tags: ""}], an empty store, a generator
    that answers [["foo"; "bar"]] to everything, a credential that is set and
    a page fetch that returns a non-empty title or text for that uri, the
    non-refresh run completes; the saved tree is the input tree with nothing
    but that leaf's [tags] changed, to ["foo,bar"]; and the store holds one
    row, for ["http://a.test"], with the tag string ["foo,bar"] and the
    fetched title. *)
Theorem one_leaf_end_to_end get_page_content now genai_Client json_load
    json_dump generator (w : world) (input_file contents key : string)
    (t : node) (o : list (string * string)) :
  let r := main_with get_page_content now genai_Client json_load json_dump
             generator w input_file false in
  let url := "http://a.test" in
  files w !! input_file = Some contents ->
  json_load contents = Some t ->
  List.filter taggable (preorder t) = [Sample.leaf EmptyString o] ->
  TagDB.create_table (cache w) = ∅ ->
  GEMINI_API_KEY w = Some key ->
  Py.truthy key = true ->
  (forall c i ti s, (generator c i ti s).2 = Tags ["foo"; "bar"]) ->
  (forall i, Py.truthy (get_page_content i url).1
             || Py.truthy (get_page_content i url).2 = true) ->
  ended r = Completed
  /\ exists t' i,
       data r = Some t'
       /\ files (final r) !! input_file = Some (json_dump t')
       /\ List.filter taggable (preorder t') = [Sample.leaf "foo,bar" o]
       /\ erase_tags t' = erase_tags t
       /\ cache (final r)
          = Some {[ url := {| TagDB.title := (get_page_content i url).1;
                              TagDB.tags := "foo,bar";
                              TagDB.updated_at := now i |} ]}
       /\ (cache (final r) ≫= fun db => TagDB.get_tags db url) = Some "foo,bar".
Proof.
  intros r url Hin Hload Hone Hempty Hkey Htruthy Hgen Hpage.
  subst r. unfold main_with. rewrite Hin, lookup_insert_eq.
  cbn [mbind option_bind]. rewrite Hload, Hkey.
  rewrite (setup_gemini_present _ _ Htruthy), Hempty.
  rewrite process_phase1_eq. cbn zeta. cbn [ended data final files cache fst].
  split; [done|].
  destruct (loop_one_leaf get_page_content generator now
              (Some (genai_Client key))
              (length (collect_bookmarks t [])) o Hgen Hpage
              (collect_bookmarks t []) 0) as [k Hk].
  { rewrite collect_bookmarks_preorder. simpl.
    by rewrite <- filter_taggable_http. }
  rewrite Hk.
  set (db1 := {[ "http://a.test" := _ ]} : TagDB.t).
  exists (process_phase2 t db1), k.
  split; [done|]. split.
  { rewrite lookup_delete_ne by apply temp_path_differs.
    by rewrite lookup_insert_eq. }
  split.
  { rewrite preorder_process_phase2, filter_taggable_process_phase2, Hone.
    reflexivity. }
  split; [apply erase_tags_process_phase2|].
  split; [done|].
  cbn [mbind option_bind]. unfold TagDB.get_tags, db1.
  by rewrite lookup_singleton_eq.
Qed.

Lemma one_leaf_end_to_end_witness :
  ended (main_with Sample.a_page Sample.clock Sample.connect Sample.load_menu
           Sample.dump Sample.foo_bar Sample.with_key "bookmarks.json" false)
  = Completed.
Proof.
  refine (proj1 (one_leaf_end_to_end Sample.a_page Sample.clock Sample.connect
                   Sample.load_menu Sample.dump Sample.foo_bar Sample.with_key
                   "bookmarks.json" "exported" "secret" Sample.menu []
                   _ _ _ _ _ _ _ _)); try reflexivity.
Defined.

(** C8 as stated fails: the same tree, store and generator, with a page that
    cannot be fetched; the node's title is empty too, so the generator is
    never asked, the run completes with the leaf's [tags] still [""] and the
    store still empty. *)
Lemma one_leaf_without_page_gets_no_tags :
  let r := main_with Sample.no_page Sample.clock Sample.connect Sample.load_menu
             Sample.dump Sample.foo_bar Sample.with_key "bookmarks.json" false in
  ended r = Completed
  /\ List.filter taggable (preorder Sample.menu) = [Sample.a_test]
  /\ data r = Some Sample.menu
  /\ (preorder <$> data r) = Some [Sample.menu; Sample.bookmark "http://a.test" "" ""]
  /\ cache (final r) = Some ∅
  /\ (forall i a, In (At i a) (trace r) -> a = Fetch "http://a.test" \/ a = Sleep).
Proof.
  vm_compute. repeat split; try reflexivity.
  intros i a H.
  repeat (destruct H as [H|H]; [try discriminate H; injection H as _ <-; auto|]).
  destruct H.
Qed.

Lemma process_phase2_frame_witness :
  tags (process_phase2 Sample.a_test Sample.one_row) = Some "x"
  /\ tags (process_phase2 Sample.c_test {[ "http://c.test" := Sample.empty_row ]})
     = Some "manual1,manual2"
  /\ tags (process_phase2 Sample.c_test ∅) = Some "manual1,manual2".
Proof.
  pose proof (process_phase2_frame Sample.menu Sample.one_row) as (_ & _ & H1).
  pose proof (process_phase2_frame Sample.menu
                {[ "http://c.test" := Sample.empty_row ]}) as (_ & _ & H2).
  pose proof (process_phase2_frame Sample.menu ∅) as (_ & _ & H3).
  split; [|split].
  - apply (proj1 (proj2 (H1 Sample.a_test)) "x"); [reflexivity|reflexivity|discriminate].
  - apply (proj1 (H2 Sample.c_test)); [reflexivity | right; reflexivity].
  - apply (proj1 (H3 Sample.c_test)); [reflexivity | left; reflexivity].
Defined.

(** * Further properties of the code *)

(** ** Tag lists: [split], [strip], [join] *)

Lemma lstrip_cases s :
  Py.lstrip s = EmptyString
  \/ exists c s', Py.lstrip s = String c s' /\ Py.isspace c = false.
Proof.
  induction s as [|c s IH]; simpl; [by left|].
  destruct (Py.isspace c) eqn:Hc; [exact IH|]. right. by exists c, s.
Qed.

Lemma rstrip_cons_nonspace c s :
  Py.isspace c = false -> Py.rstrip (String c s) = String c (Py.rstrip s).
Proof. intros Hc. simpl. rewrite Hc. by destruct (Py.rstrip s). Qed.

Lemma rstrip_idempotent s : Py.rstrip (Py.rstrip s) = Py.rstrip s.
Proof.
  induction s as [|c s IH]; [done|]. simpl.
  destruct (Py.rstrip s) as [|c' r] eqn:Hr.
  - destruct (Py.isspace c) eqn:Hc; [done|]. simpl. by rewrite Hc.
  - change (Py.rstrip (String c (String c' r)))
      with (match Py.rstrip (String c' r) with
            | EmptyString =>
                if Py.isspace c then EmptyString else String c EmptyString
            | r0 => String c r0
            end).
    by rewrite IH.
Qed.

Lemma strip_idempotent s : Py.strip (Py.strip s) = Py.strip s.
Proof.
  unfold Py.strip. destruct (lstrip_cases s) as [->|(c & s' & -> & Hc)]; [done|].
  rewrite (rstrip_cons_nonspace c s' Hc). cbn [Py.lstrip]. rewrite Hc.
  rewrite (rstrip_cons_nonspace c _ Hc). by rewrite rstrip_idempotent.
Qed.

Lemma lstrip_chars a s :
  In a (list_ascii_of_string (Py.lstrip s)) -> In a (list_ascii_of_string s).
Proof.
  induction s as [|c s IH]; simpl; [done|].
  destruct (Py.isspace c); simpl; [by right; apply IH | done].
Qed.

Lemma rstrip_chars a s :
  In a (list_ascii_of_string (Py.rstrip s)) -> In a (list_ascii_of_string s).
Proof.
  induction s as [|c s IH]; simpl; [done|].
  destruct (Py.rstrip s) as [|c' r].
  - destruct (Py.isspace c); simpl; [done | intros [|[]]; by left].
  - simpl in *. intros [|H]; [by left | right; by apply IH].
Qed.

Lemma strip_chars a s :
  In a (list_ascii_of_string (Py.strip s)) -> In a (list_ascii_of_string s).
Proof. intros H. by apply lstrip_chars, rstrip_chars. Qed.

Lemma split_not_nil sep s : Py.split sep s <> [].
Proof.
  destruct s as [|c s]; simpl; [done|].
  destruct (Ascii.eqb c sep); [done|]. by destruct (Py.split sep s).
Qed.

(** No field of a split holds the separator. *)
Lemma split_fields_free sep s :
  Forall (fun w => ~ In sep (list_ascii_of_string w)) (Py.split sep s).
Proof.
  induction s as [|c s IH]; simpl.
  { constructor; [by intros []|constructor]. }
  destruct (Ascii.eqb_spec c sep) as [->|Hne].
  - constructor; [by intros []|exact IH].
  - destruct (Py.split sep s) as [|w ws].
    { constructor; [|constructor]. simpl. by intros [|[]]. }
    apply Forall_cons in IH as [Hw Hws]. constructor; [|exact Hws].
    simpl. by intros [|].
Qed.

Lemma split_free sep w :
  ~ In sep (list_ascii_of_string w) -> Py.split sep w = [w].
Proof.
  induction w as [|c w IH]; simpl; [done|]. intros Hfree.
  destruct (Ascii.eqb_spec c sep) as [->|Hne]; [by destruct Hfree; left|].
  rewrite IH; [done|]. intros H. apply Hfree. by right.
Qed.

Lemma split_field_then_rest sep w rest :
  ~ In sep (list_ascii_of_string w) ->
  Py.split sep (w +:+ String sep rest) = w :: Py.split sep rest.
Proof.
  induction w as [|c w IH]; simpl; intros Hfree.
  - by rewrite Ascii.eqb_refl.
  - destruct (Ascii.eqb_spec c sep) as [->|Hne]; [by destruct Hfree; left|].
    rewrite IH; [done|]. intros H. apply Hfree. by right.
Qed.

(** [split] undoes [join] on separator-free fields. *)
Lemma split_join sep (l : list string) :
  l <> [] ->
  Forall (fun w => ~ In sep (list_ascii_of_string w)) l ->
  Py.split sep (Py.join (String sep EmptyString) l) = l.
Proof.
  induction l as [|w l IH]; [done|]. intros _ Hall.
  apply Forall_cons in Hall as [Hw Hl]. unfold Py.join in *.
  destruct l as [|w' l]; [by apply split_free|].
  change (String.concat (String sep EmptyString) (w :: w' :: l))
    with (w +:+ String sep (String.concat (String sep EmptyString) (w' :: l))).
  rewrite split_field_then_rest by done. f_equal. by apply IH.
Qed.

(** [join] undoes [split]. *)
Lemma join_split sep s : Py.join (String sep EmptyString) (Py.split sep s) = s.
Proof.
  unfold Py.join. induction s as [|c s IH]; [done|]. simpl.
  pose proof (split_not_nil sep s) as Hne.
  destruct (Ascii.eqb_spec c sep) as [->|Hc].
  - destruct (Py.split sep s) as [|w ws]; [done|].
    change (String.concat (String sep EmptyString) (EmptyString :: w :: ws))
      with (String sep (String.concat (String sep EmptyString) (w :: ws))).
    by rewrite IH.
  - destruct (Py.split sep s) as [|w ws]; [done|].
    destruct ws as [|w' ws]; simpl in *; by rewrite <- IH.
Qed.

Lemma truthy_join sep w (l : list string) :
  Py.truthy w = true -> Py.truthy (Py.join sep (w :: l)) = true.
Proof.
  unfold Py.join. destruct w as [|c w]; [done|]. intros _.
  by destruct l.
Qed.

Lemma parse_tags_fields field :
  Forall (fun w => Py.truthy w = true /\ Py.strip w = w
                   /\ ~ In ","%char (list_ascii_of_string w)) (parse_tags field).
Proof.
  unfold parse_tags. apply Forall_forall. intros w Hw.
  apply list_elem_of_In, filter_In in Hw as [Hw Ht].
  apply in_map_iff in Hw as (w0 & <- & Hw0).
  split; [done|]. split; [apply strip_idempotent|].
  intros Hc. apply strip_chars in Hc.
  pose proof (split_fields_free ","%char field) as Hall.
  rewrite Forall_forall in Hall. apply (Hall w0); [by apply list_elem_of_In|done].
Qed.

(** X1: every tag read from a tag field or from a generator reply is
    non-empty, has no blank at either end and holds no comma. *)
Theorem parse_tags_are_clean (field : string) (w : string) :
  In w (parse_tags field) ->
  w <> EmptyString /\ Py.strip w = w /\ ~ In ","%char (list_ascii_of_string w).
Proof.
  intros Hw. pose proof (parse_tags_fields field) as Hall.
  rewrite Forall_forall in Hall.
  destruct (Hall w) as (Ht & Hs & Hc); [by apply list_elem_of_In|].
  split; [by intros ->|done].
Qed.

Lemma parse_tags_are_clean_witness :
  In "b"%string (parse_tags "a, b ,,c ")
  /\ "b"%string <> EmptyString /\ Py.strip "b" = "b"%string
  /\ ~ In ","%char (list_ascii_of_string "b").
Proof.
  assert (H : In "b"%string (parse_tags "a, b ,,c ")).
  { vm_compute. right; left; reflexivity. }
  split; [exact H | exact (parse_tags_are_clean "a, b ,,c " "b" H)].
Defined.

Lemma parse_tags_join_fixed (field : string) :
  parse_tags (Py.join "," (parse_tags field)) = parse_tags field.
Proof.
  pose proof (parse_tags_fields field) as Hall.
  destruct (parse_tags field) as [|w l] eqn:Hp; [done|].
  unfold parse_tags at 1.
  rewrite (split_join ","%char (w :: l)); [|done|].
  - clear Hp. induction Hall as [|x xs (Ht & Hs & _) _ IH]; [done|].
    cbn [map List.filter]. by rewrite Hs, Ht, IH.
  - eapply Forall_impl; [exact Hall|]. by intros x (_ & _ & Hc).
Qed.

(** X2: the string stored for a tag field parses back to the same tag list:
    joining the parsed tags with commas and parsing again changes nothing;
    and a field that is split at its commas and joined again is the field. *)
Theorem parse_tags_join_round_trip (field : string) :
  parse_tags (Py.join "," (parse_tags field)) = parse_tags field
  /\ Py.join "," (Py.split "," field) = field.
Proof. split; [apply parse_tags_join_fixed | apply join_split]. Qed.

(** ** The generator: [generate_tags] *)

Lemma lower_append a b : Py.lower (a +:+ b) = Py.lower a +:+ Py.lower b.
Proof. induction a as [|c a IH]; simpl; [done | by rewrite IH]. Qed.

Lemma prefix_append p b : String.prefix p (p +:+ b) = true.
Proof.
  induction p as [|c p IH]; simpl; [by destruct b|].
  by destruct (ascii_dec c c).
Qed.

Lemma contains_prefix p s : String.prefix p s = true -> Py.contains p s = true.
Proof. destruct s; simpl; by intros ->. Qed.

Lemma contains_append p a b : Py.contains p (a +:+ p +:+ b) = true.
Proof.
  induction a as [|c a IH].
  - change (EmptyString +:+ p +:+ b) with (p +:+ b).
    apply contains_prefix, prefix_append.
  - change (String c a +:+ p +:+ b) with (String c (a +:+ p +:+ b)).
    cbn [Py.contains]. rewrite IH. by rewrite orb_true_r.
Qed.

(** X3: [generate_tags] gives the quota signal only when the service call
    raised with a message that holds 429, quota or resource_exhausted once
    lowered; any list it returns holds only tags that are non-empty, trimmed
    and comma-free. *)
Theorem generate_tags_outcomes (c : option client) (i : nat)
    (title0 content : string) :
  match (generate_tags c i title0 content).2 with
  | Tags l =>
      forall w, In w l ->
        w <> EmptyString /\ Py.strip w = w
        /\ ~ In ","%char (list_ascii_of_string w)
  | QuotaReached =>
      exists cl e,
        c = Some cl /\ cl i (prompt title0 content) = Raise e
        /\ Py.contains "429" (Py.lower e) || Py.contains "quota" (Py.lower e)
           || Py.contains "resource_exhausted" (Py.lower e) = true
  end.
Proof.
  unfold generate_tags. destruct c as [cl|]; cbn [snd]; [|by intros w []].
  destruct (cl i (prompt title0 content)) as [s|e] eqn:Hreply; cbn [snd].
  - intros w Hw. pose proof (parse_tags_fields s) as Hall.
    rewrite Forall_forall in Hall.
    destruct (Hall w) as (Ht & Hs & Hc); [by apply list_elem_of_In|].
    split; [by intros ->|done].
  - destruct (_ || _) eqn:Hq; cbn [snd]; [by exists cl, e | by intros w []].
Qed.

(** X4: an error of the service whose message holds 429, quota or
    resource_exhausted anywhere, in any letter case, is turned into the quota
    signal, with the warning printed. *)
Theorem generate_tags_quota_marker (cl : client) (i : nat)
    (title0 content a k b : string) :
  cl i (prompt title0 content) = Raise (a +:+ k +:+ b) ->
  In (Py.lower k) ["429"; "quota"; "resource_exhausted"]%string ->
  generate_tags (Some cl) i title0 content = ([MsgQuotaWarning], QuotaReached).
Proof.
  intros Hreply Hk. unfold generate_tags. rewrite Hreply.
  rewrite !lower_append.
  destruct Hk as [<-|[<-|[<-|[]]]]; rewrite contains_append;
    by rewrite ?orb_true_r.
Qed.

Lemma generate_tags_quota_marker_witness :
  generate_tags (Some (fun _ _ => Raise "HTTP 503: Quota exceeded for project"))
    0 "t" "c"
  = ([MsgQuotaWarning], QuotaReached).
Proof.
  apply (generate_tags_quota_marker _ 0 "t" "c" "HTTP 503: " "Quota"
           " exceeded for project").
  - reflexivity.
  - right; left; reflexivity.
Defined.

(** ** The page fetch: [get_page_content] *)

Lemma length_take n s : String.length (Py.take n s) <= n.
Proof.
  unfold Py.take. revert s. induction n as [|n IH]; intros [|c s]; simpl;
    try lia. specialize (IH s). lia.
Qed.

(** X5: the text [get_page_content] returns is at most 1000 characters long
    and its title has no blank at either end; both are empty when the request
    failed or the status is not 200; and paragraphs after the fifth make no
    difference. *)
Theorem get_page_content_bounds (requests_get : nat -> string -> Http.result)
    (i : nat) (url : string) :
  let page := Http.get_page_content requests_get i url in
  String.length page.2 <= 1000
  /\ Py.strip page.1 = page.1
  /\ ((requests_get i url = Http.Failed
       \/ exists st t ps, requests_get i url = Http.Response st t ps /\ st <> 200) ->
      page = (EmptyString, EmptyString))
  /\ (forall st t ps other i' url',
        requests_get i url = Http.Response st t ps ->
        other i' url' = Http.Response st t (firstn 5 ps) ->
        Http.get_page_content other i' url' = page).
Proof.
  intros page. subst page. unfold Http.get_page_content.
  destruct (requests_get i url) as [|st t ps] eqn:Hr.
  - cbn [fst snd String.length]. split; [lia|]. split; [done|].
    split; [done|]. intros; discriminate.
  - destruct (Nat.eqb_spec st 200) as [->|Hst].
    + cbn [fst snd]. split; [apply length_take|]. split.
      { destruct t as [s|]; [|done]. destruct (Py.truthy s); [|done].
        apply strip_idempotent. }
      split.
      { intros [?|(st & t' & ps' & [= <- _ _] & Hne)]; [discriminate|done]. }
      intros st t' ps' other i' url' [= <- <- <-] ->. cbn [Nat.eqb].
      change (200 =? 200) with true. cbn iota.
      by rewrite firstn_firstn.
    + cbn [fst snd String.length]. split; [lia|]. split; [done|].
      split; [done|].
      intros st' t' ps' other i' url' [= <- <- <-] ->.
      by rewrite (proj2 (Nat.eqb_neq st 200) Hst).
Qed.

Lemma get_page_content_bounds_witness :
  Http.get_page_content (fun _ _ => Http.Response 404 (Some "Not found") ["gone"])
    0 "http://a.test"
  = (EmptyString, EmptyString).
Proof.
  apply (proj1 (proj2 (proj2 (get_page_content_bounds
           (fun _ _ => Http.Response 404 (Some "Not found") ["gone"])
           0 "http://a.test")))).
  right. exists 404, (Some "Not found"%string), ["gone"%string].
  split; [reflexivity | discriminate].
Defined.

(** ** The tag cache, further *)




(** X8: an upsert adds its url to the urls that have a row and removes
    none. *)
Theorem upsert_dom (db : TagDB.t) (url ti : string) (ta : list string)
    (no : string) :
  dom (TagDB.upsert_tags db url ti ta no) = {[ url ]} ∪ dom db.
Proof.
  unfold TagDB.upsert_tags. destruct (db !! url); apply dom_insert_L.
Qed.

(** ** Phase 2, further *)

Lemma process_phase2_is_place n db : is_place (process_phase2 n db) = is_place n.
Proof. by destruct n. Qed.

Lemma map_fixed {A} (f : A -> A) (l : list A) :
  Forall (fun x => f x = x) l -> map f l = l.
Proof. induction 1 as [|x l Hx _ IH]; simpl; [done | by rewrite Hx, IH]. Qed.

Lemma tags_process_phase2_twice n db :
  tags (process_phase2 (process_phase2 n db) db) = tags (process_phase2 n db).
Proof.
  destruct n as [[s|] u ti ta cs o];
    cbn [process_phase2 type uri title tags children others is_place];
    [destruct (String.eqb s _)|]; try done.
  destruct (Py.startswith _ _); try done.
  destruct (TagDB.get_tags db _) as [v|]; try done.
  by destruct (Py.truthy v).
Qed.

Lemma process_phase2_fields n db :
  process_phase2 n db
  = Node (type n) (uri n) (title n) (tags (process_phase2 n db))
      (match children n with
       | Some cs => Some (map (fun child => process_phase2 child db) cs)
       | None => None
       end)
      (others n).
Proof. by destruct n. Qed.

(** X9: running Phase 2 a second time against the same store changes
    nothing more. *)
Theorem process_phase2_idempotent (t : node) (db : TagDB.t) :
  process_phase2 (process_phase2 t db) db = process_phase2 t db.
Proof.
  induction t as [ty u ti ta o | ty u ti ta cs o IH] using node_induction.
  - rewrite (process_phase2_fields (process_phase2 _ db) db).
    rewrite tags_process_phase2_twice.
    by rewrite (process_phase2_fields (Node ty u ti ta None o) db) at 5.
  - rewrite (process_phase2_fields (process_phase2 _ db) db).
    rewrite tags_process_phase2_twice.
    rewrite (process_phase2_fields (Node ty u ti ta (Some cs) o) db) at 5.
    cbn [process_phase2 type uri title children others]. do 2 f_equal.
    rewrite map_map. clear -IH.
    induction IH as [|c cs Hc _ IHcs]; [done|]. cbn [map]. by rewrite Hc, IHcs.
Qed.

(** X10: Phase 2 returns the tree as it was when no taggable leaf of it has
    a non-empty tag string in the store; so it does on an empty store. *)
Theorem process_phase2_nothing_cached (t : node) (db : TagDB.t) :
  (forall m, In m (preorder t) -> taggable m = true ->
     TagDB.get_tags db (get_or_empty (uri m)) = None
     \/ TagDB.get_tags db (get_or_empty (uri m)) = Some EmptyString) ->
  process_phase2 t db = t.
Proof.
  induction t as [ty u ti ta o | ty u ti ta cs o IH] using node_induction;
    intros Hnone.
  - specialize (Hnone _ (or_introl eq_refl)). unfold taggable, has_http_uri in Hnone.
    cbn [process_phase2 type uri title tags children others] in *. f_equal.
    destruct (is_place _); [|done]. destruct (Py.startswith _ _); [|done].
    by destruct (Hnone eq_refl) as [-> | ->].
  - pose proof (Hnone _ (or_introl eq_refl)) as Hroot.
    unfold taggable, has_http_uri in Hroot.
    cbn [process_phase2 type uri title tags children others] in *. f_equal.
    + destruct (is_place _); [|done]. destruct (Py.startswith _ _); [|done].
      by destruct (Hroot eq_refl) as [-> | ->].
    + f_equal. apply map_fixed. rewrite Forall_forall in IH |- *.
      intros c Hc. apply (IH c Hc). intros m Hm. apply Hnone.
      cbn [preorder children]. right. apply in_concat.
      exists (preorder c). split; [|done].
      apply in_map_iff. exists c. split; [done|]. by apply list_elem_of_In.
Qed.

Lemma process_phase2_nothing_cached_witness :
  process_phase2 Sample.menu ∅ = Sample.menu.
Proof.
  apply process_phase2_nothing_cached. intros m _ _. left. reflexivity.
Defined.

Lemma filter_place_process_phase2 db (l : list node) :
  List.filter is_place (map (fun m => process_phase2 m db) l)
  = map (fun m => process_phase2 m db) (List.filter is_place l).
Proof.
  induction l as [|n l IH]; [done|]. simpl.
  rewrite process_phase2_is_place. destruct (is_place n); simpl; by rewrite IH.
Qed.

(** X11: collecting the bookmarks of the tree after Phase 2 gives the
    bookmarks collected before it, each updated by Phase 2, in the same
    order: Phase 2 adds, drops and moves no bookmark. *)
Theorem collect_after_process_phase2 (t : node) (db : TagDB.t) :
  collect_bookmarks (process_phase2 t db) []
  = map (fun m => process_phase2 m db) (collect_bookmarks t []).
Proof.
  rewrite !collect_bookmarks_preorder. cbn [app].
  by rewrite preorder_process_phase2, filter_place_process_phase2.
Qed.

(** ** Phase 1, further *)

Lemma actions_at_said j (said : list message) : actions_at j (map Say said) = [].
Proof. by induction said. Qed.

Lemma replay_app now e1 e2 db :
  replay now (e1 ++ e2) db = replay now e2 (replay now e1 db).
Proof.
  revert db. induction e1 as [|[m|i [u|ft c|u ti ta|]] e1 IH]; intros db; simpl; done.
Qed.

Lemma replay_said now (said : list message) db : replay now (map Say said) db = db.
Proof. by induction said. Qed.

Lemma upsert_no_empty_tags (db : TagDB.t) url ti w l no :
  no_empty_tags db -> Py.truthy w = true ->
  no_empty_tags (TagDB.upsert_tags db url ti (w :: l) no).
Proof.
  intros Hdb Hw url' r Hr.
  destruct (decide (url = url')) as [<-|Hne].
  - unfold TagDB.upsert_tags in Hr.
    destruct (db !! url); rewrite lookup_insert_eq in Hr; injection Hr as <-;
      cbn [TagDB.tags]; intros Hempty;
      pose proof (truthy_join "," w l Hw) as Ht;
      change (Py.join "," (w :: l) = EmptyString) in Hempty;
      by rewrite Hempty in Ht.
  - rewrite lookup_upsert_ne in Hr by done. by apply (Hdb url').
Qed.

Lemma existing_tags_head n w l : existing_tags n = w :: l -> Py.truthy w = true.
Proof.
  intros H. pose proof (parse_tags_fields (get_or_empty (tags n))) as Hall.
  unfold existing_tags in H. rewrite H in Hall.
  by apply Forall_cons in Hall as [(Ht & _) _].
Qed.

Lemma generate_tags_head c i ti s said w l :
  generate_tags c i ti s = (said, Tags (w :: l)) -> Py.truthy w = true.
Proof.
  unfold generate_tags. destruct c as [cl|]; [|done].
  destruct (cl i (prompt ti s)) as [reply|e].
  - intros [= _ H]. pose proof (parse_tags_fields reply) as Hall.
    rewrite H in Hall. by apply Forall_cons in Hall as [(Ht & _) _].
  - by destruct (_ || _).
Qed.

Section Phase1Further.

Variable get_page_content : nat -> string -> string * string.
Variable generator : option client -> nat -> string -> string ->
                     list message * generated.
Variable now : nat -> string.
Variable cl : option client.
Variable init_mode : bool.
Variable total : nat.

Local Abbreviation body := (phase1_body get_page_content generator now cl init_mode total).
Local Abbreviation loop := (phase1_loop get_page_content generator now cl init_mode total).

Ltac turn_cases :=
  unfold phase1_body;
  repeat match goal with
    | |- context [get_page_content ?i ?u] =>
        destruct (get_page_content i u) as [? ?] eqn:?
    | |- context [generator ?c ?i ?t ?s] =>
        destruct (generator c i t s) as [? [?|]] eqn:?
    | |- context [if ?b then _ else _] => destruct b eqn:?
    end.

Lemma body_frame i n (db : TagDB.t) q u :
  (has_http_uri n = true -> get_or_empty (uri n) <> u) ->
  (body i n db q).1.1 !! u = db !! u.
Proof.
  unfold has_http_uri. intros Hu.
  turn_cases; cbn [fst]; try done; apply lookup_upsert_ne, Hu;
    by destruct (Py.startswith _ _).
Qed.

Lemma loop_frame l u : forall i (db : TagDB.t) q,
  Forall (fun n => has_http_uri n = true -> get_or_empty (uri n) <> u) l ->
  (loop i l db q).1.1 !! u = db !! u.
Proof.
  induction l as [|n l IH]; intros i db q Hall; simpl; [done|].
  apply Forall_cons in Hall as [Hn Hl].
  pose proof (body_frame i n db q u Hn) as Hb.
  destruct (body i n db q) as [[db1 q1] e1].
  specialize (IH (S i) db1 q1 Hl).
  destruct (loop (S i) l db1 q1) as [[db2 q2] e2]. cbn [fst] in *. congruence.
Qed.

(** The store after a turn is the store before it with the turn's upserts
    applied. *)
Lemma body_replay i n db q : (body i n db q).1.1 = replay now (body i n db q).2 db.
Proof.
  turn_cases; cbn [fst snd]; rewrite ?replay_app; cbn [replay];
    rewrite ?replay_app, ?replay_said; done.
Qed.

Lemma loop_replay l : forall i db q,
  (loop i l db q).1.1 = replay now (loop i l db q).2 db.
Proof.
  induction l as [|n l IH]; intros i db q; simpl; [done|].
  pose proof (body_replay i n db q) as Hb.
  destruct (body i n db q) as [[db1 q1] e1].
  specialize (IH (S i) db1 q1).
  destruct (loop (S i) l db1 q1) as [[db2 q2] e2]. cbn [fst snd] in *.
  rewrite replay_app. congruence.
Qed.

Lemma body_branch4 i n db :
  Py.startswith (get_or_empty (uri n)) "http" = true ->
  negb init_mode && Py.nonempty (existing_tags n) = false ->
  negb init_mode
  && bool_decide (TagDB.get_tags db (get_or_empty (uri n)) <> None) = false ->
  actions_at i (body i n db false).2
  = generation_turn get_page_content generator cl i n.
Proof.
  intros Hhttp Hskip1 Hskip2. unfold generation_turn, phase1_body.
  rewrite Hhttp, Hskip1, Hskip2. cbn [negb].
  destruct (get_page_content i _) as [page_title content]. cbn [fst snd].
  destruct (_ || _);
    [|cbn [snd app actions_at]; by rewrite !Nat.eqb_refl].
  destruct (generator cl i _ content) as [said [new_tags|]]; cbn [fst snd];
    [destruct (Py.nonempty new_tags)|];
    repeat (rewrite ?actions_at_app, ?actions_at_said, ?Nat.eqb_refl;
            cbn [actions_at app snd]); done.
Qed.

(** A turn that is not skipped is branch 1 or branch 4. *)
Lemma body_actions i n db q :
  let acts := actions_at i (body i n db q).2 in
  (has_http_uri n = false -> acts = [])
  /\ (acts = []
      \/ (init_mode = false /\ existing_tags n <> []
          /\ acts = [Upsert (get_or_empty (uri n)) (get_or_empty (title n))
                       (existing_tags n)])
      \/ acts = generation_turn get_page_content generator cl i n).
Proof.
  unfold has_http_uri. cbn zeta.
  destruct (Py.startswith (get_or_empty (uri n)) "http") eqn:Hhttp.
  2:{ unfold phase1_body. rewrite Hhttp. cbn. split; [done | by left]. }
  split; [done|].
  destruct (negb init_mode && Py.nonempty (existing_tags n)) eqn:Hskip1.
  { right; left. apply andb_true_iff in Hskip1 as [Hinit Hex].
    unfold phase1_body. rewrite Hhttp, Hinit, Hex. cbn.
    rewrite Nat.eqb_refl. split; [by destruct init_mode|].
    split; [by destruct (existing_tags n) | done]. }
  destruct (negb init_mode
            && bool_decide (TagDB.get_tags db (get_or_empty (uri n)) <> None))
    eqn:Hskip2.
  { left. unfold phase1_body. by rewrite Hhttp, Hskip1, Hskip2. }
  destruct q.
  { left. unfold phase1_body. by rewrite Hhttp, Hskip1, Hskip2. }
  right; right. by apply body_branch4.
Qed.

(** Branch 4 is taken in refresh mode, or with no manual tags and no row,
    as long as the quota flag is down. *)
Lemma body_generation i n db :
  has_http_uri n = true ->
  init_mode = true \/ (existing_tags n = [] /\ db !! get_or_empty (uri n) = None) ->
  actions_at i (body i n db false).2
  = generation_turn get_page_content generator cl i n.
Proof.
  unfold has_http_uri. intros Hhttp Hcase. apply body_branch4; [done| |].
  - destruct Hcase as [->|[-> _]]; [done | by rewrite andb_false_r].
  - destruct Hcase as [->|[_ Hrow]]; [done|].
    unfold TagDB.get_tags. rewrite Hrow.
    rewrite bool_decide_eq_false_2; [by rewrite andb_false_r | by intros H].
Qed.

(** When the generator yields nothing, a turn changes the store as branch 1
    alone would. *)
Lemma body_yields_nothing i n db q :
  (forall c j ti s, (generator c j ti s).2 = QuotaReached
                    \/ (generator c j ti s).2 = Tags []) ->
  (body i n db q).1.1 = sync_store now init_mode i n db.
Proof.
  intros Hgen. unfold sync_store, phase1_body.
  destruct (Py.startswith _ _); cbn [negb andb fst]; [|done].
  destruct (negb init_mode && Py.nonempty (existing_tags n)); [done|].
  destruct (negb init_mode && bool_decide _); [done|].
  destruct q; [done|].
  destruct (get_page_content i _) as [page_title content].
  destruct (_ || _); [|done].
  pose proof (Hgen cl i (if Py.truthy (get_or_empty (title n))
                         then get_or_empty (title n) else page_title) content) as H.
  destruct (generator cl i _ content) as [said r]. cbn [snd] in H.
  by destruct H as [-> | ->].
Qed.

Lemma loop_yields_nothing l : forall i db q,
  (forall c j ti s, (generator c j ti s).2 = QuotaReached
                    \/ (generator c j ti s).2 = Tags []) ->
  (loop i l db q).1.1 = sync_all now init_mode i l db.
Proof.
  induction l as [|n l IH]; intros i db q Hgen; simpl; [done|].
  pose proof (body_yields_nothing i n db q Hgen) as Hb.
  destruct (body i n db q) as [[db1 q1] e1].
  specialize (IH (S i) db1 q1 Hgen).
  destruct (loop (S i) l db1 q1) as [[db2 q2] e2]. cbn [fst] in *. congruence.
Qed.

End Phase1Further.

(** X12: Phase 1 removes no row, and the row of a url changes only if some
    bookmark of the list has that url and it starts with http. *)
Theorem process_phase1_frame get_page_content generator now
    (bookmarks : list node) (db : TagDB.t) (cl : option client)
    (init_mode : bool) (u : string) :
  let db' := (process_phase1 get_page_content generator now bookmarks db cl
                init_mode).1 in
  (is_Some (db !! u) -> is_Some (db' !! u))
  /\ ((forall n, In n bookmarks -> has_http_uri n = true ->
         get_or_empty (uri n) <> u) ->
      db' !! u = db !! u).
Proof.
  cbn zeta. rewrite process_phase1_eq. cbn zeta. cbn [fst]. split.
  - apply loop_keeps_records.
  - intros Hu. apply loop_frame. apply Forall_forall. intros n Hn.
    apply Hu. by apply list_elem_of_In.
Qed.

Lemma process_phase1_frame_witness :
  (process_phase1 Sample.a_page Sample.foo_bar Sample.clock Sample.three
     Sample.one_row (Some Sample.some_client) false).1 !! "http://d.test"
  = None.
Proof.
  refine (proj2 (process_phase1_frame Sample.a_page Sample.foo_bar Sample.clock
                   Sample.three Sample.one_row (Some Sample.some_client) false
                   "http://d.test") _).
  intros n [<-|[<-|[<-|[]]]] _; discriminate.
Defined.

(** X13: the calls Phase 1 makes for one bookmark are none at all, or the one
    upsert of its manual tags (outside refresh mode), or one fetch followed by
    at most one generation call, at most one upsert and one pause; there are
    none for a position past the end of the list and none for a bookmark
    whose uri is missing or does not start with http. *)
Theorem phase1_calls_per_bookmark get_page_content generator now
    (bookmarks : list node) (db : TagDB.t) (cl : option client)
    (init_mode : bool) (j : nat) :
  let acts := actions_at j (process_phase1 get_page_content generator now
                              bookmarks db cl init_mode).2 in
  (bookmarks !! j = None -> acts = [])
  /\ forall n, bookmarks !! j = Some n ->
       (has_http_uri n = false -> acts = [])
       /\ (acts = []
           \/ (init_mode = false /\ existing_tags n <> []
               /\ acts = [Upsert (get_or_empty (uri n)) (get_or_empty (title n))
                            (existing_tags n)])
           \/ acts = generation_turn get_page_content generator cl j n).
Proof.
  cbn zeta. rewrite process_phase1_eq. cbn zeta. cbn [snd actions_at]. split.
  - intros Hnone. apply lookup_ge_None in Hnone.
    apply (actions_at_outside 0 (0 + length bookmarks)); [apply loop_index | lia].
  - intros n Hj. rewrite (actions_at_loop _ _ _ _ _ _ _ _ _ _ _ Hj). cbn zeta.
    apply body_actions.
Qed.

Lemma phase1_calls_per_bookmark_witness :
  actions_at 7 (process_phase1 Sample.a_page Sample.foo_bar Sample.clock
                  Sample.three ∅ (Some Sample.some_client) false).2
  = [].
Proof.
  apply (proj1 (phase1_calls_per_bookmark Sample.a_page Sample.foo_bar
                  Sample.clock Sample.three ∅ (Some Sample.some_client) false 7)).
  reflexivity.
Defined.

(** X14: in refresh mode, whatever the manual tags and the store, and outside
    it for a bookmark with no manual tags and no row, a bookmark with an http
    uri that is reached with the quota flag down gets exactly the calls of
    branch 4: the fetch, the generation call when the node's title (or else
    the page's) or the text is non-empty, the upsert when tags came back, and
    the pause. *)
Theorem phase1_generation_turn get_page_content generator now
    (bookmarks : list node) (db : TagDB.t) (cl : option client)
    (init_mode : bool) (j : nat) (n : node) :
  let evs := (process_phase1 get_page_content generator now bookmarks db cl
                init_mode).2 in
  let reached := phase1_loop get_page_content generator now cl init_mode
                   (length bookmarks) 0 (take j bookmarks) db false in
  bookmarks !! j = Some n ->
  has_http_uri n = true ->
  reached.1.2 = false ->
  init_mode = true
  \/ (existing_tags n = [] /\ reached.1.1 !! get_or_empty (uri n) = None) ->
  actions_at j evs = generation_turn get_page_content generator cl j n.
Proof.
  intros evs reached Hj Hhttp Hflag Hcase. subst evs.
  rewrite process_phase1_eq. cbn zeta. cbn [snd actions_at].
  rewrite (actions_at_loop _ _ _ _ _ _ _ _ _ _ _ Hj). cbn zeta.
  fold reached. rewrite Hflag. by apply body_generation.
Qed.

Lemma phase1_generation_turn_witness :
  actions_at 1 (process_phase1 Sample.a_page Sample.foo_bar Sample.clock
                  Sample.three Sample.one_row (Some Sample.some_client) true).2
  = [Fetch "http://c.test"; Generate "C" ""; Upsert "http://c.test" "C" ["foo"; "bar"];
     Sleep].
Proof.
  apply (phase1_generation_turn Sample.a_page Sample.foo_bar Sample.clock
           Sample.three Sample.one_row (Some Sample.some_client) true 1
           Sample.c_test).
  - reflexivity.
  - reflexivity.
  - reflexivity.
  - left. reflexivity.
Defined.

(** X15: when every answer of the generator is the quota signal or an empty
    list, the store after Phase 1 is the store after the manual-tag upserts
    alone; in refresh mode that is the store as it was. *)
Theorem phase1_generator_yields_nothing get_page_content generator now
    (bookmarks : list node) (db : TagDB.t) (cl : option client)
    (init_mode : bool) :
  (forall c j ti s, (generator c j ti s).2 = QuotaReached
                    \/ (generator c j ti s).2 = Tags []) ->
  (process_phase1 get_page_content generator now bookmarks db cl init_mode).1
  = sync_all now init_mode 0 bookmarks db
  /\ (init_mode = true ->
      (process_phase1 get_page_content generator now bookmarks db cl init_mode).1
      = db).
Proof.
  intros Hgen. rewrite process_phase1_eq. cbn zeta. cbn [fst].
  rewrite loop_yields_nothing by done. split; [done|]. intros ->.
  generalize 0. revert db. induction bookmarks as [|n l IH]; intros db i; [done|].
  cbn [sync_all]. unfold sync_store at 1. cbn [negb]. rewrite andb_false_r.
  apply IH.
Qed.

Lemma phase1_generator_yields_nothing_witness :
  (process_phase1 Sample.a_page Sample.exhausted Sample.clock Sample.three
     Sample.one_row (Some Sample.some_client) true).1
  = Sample.one_row.
Proof.
  refine (proj2 (phase1_generator_yields_nothing Sample.a_page Sample.exhausted
                   Sample.clock Sample.three Sample.one_row
                   (Some Sample.some_client) true _) _).
  - intros. left. reflexivity.
  - reflexivity.
Defined.

Lemma body_no_empty_tags get_page_content now cl init_mode total i n db q :
  no_empty_tags db ->
  no_empty_tags (phase1_body get_page_content generate_tags now cl init_mode
                   total i n db q).1.1.
Proof.
  intros Hdb. unfold phase1_body.
  destruct (negb (Py.startswith _ _)); [done|].
  assert (Hgen :
    no_empty_tags
      (let cached_tags := TagDB.get_tags db (get_or_empty (uri n)) in
       if negb init_mode && bool_decide (cached_tags <> None)
       then (db, q, [])
       else if q then (db, q, [])
       else
         let '(page_title, content) :=
           get_page_content i (get_or_empty (uri n)) in
         let final_title :=
           if Py.truthy (get_or_empty (title n)) then get_or_empty (title n)
           else page_title in
         let head := [Say (MsgAnalysis (i + 1) total
                             (Py.take 40 (get_or_empty (title n))));
                      At i (Fetch (get_or_empty (uri n)))] in
         if Py.truthy final_title || Py.truthy content then
           let '(said, r) := generate_tags cl i final_title content in
           let call := At i (Generate final_title content) :: map Say said in
           match r with
           | Tags new_tags =>
               if Py.nonempty new_tags then
                 (TagDB.upsert_tags db (get_or_empty (uri n)) final_title
                    new_tags (now i), q,
                  head ++ call ++ [Say (MsgGenerated new_tags);
                                   At i (Upsert (get_or_empty (uri n))
                                           final_title new_tags);
                                   At i Sleep])
               else (db, q, head ++ call ++ [Say MsgNoTags; At i Sleep])
           | QuotaReached =>
               (db, true, head ++ call ++ [Say MsgApiLimit; At i Sleep])
           end
         else (db, q, head ++ [Say MsgFetchFailed; At i Sleep])).1.1).
  { cbn zeta. destruct (negb init_mode && bool_decide _); [done|].
    destruct q; [done|].
    destruct (get_page_content i _) as [page_title content].
    destruct (_ || _); [|done].
    destruct (generate_tags cl i _ content) as [said [[|w l]|]] eqn:Hg;
      cbn [Py.nonempty fst]; try done.
    apply upsert_no_empty_tags; [done|]. by eapply generate_tags_head. }
  destruct (existing_tags n) as [|w l] eqn:He.
  - cbn [Py.nonempty]. rewrite andb_false_r. exact Hgen.
  - cbn [Py.nonempty]. destruct (negb init_mode); cbn [andb]; [|exact Hgen].
    cbn [fst]. apply upsert_no_empty_tags; [done|]. by eapply existing_tags_head.
Qed.

(** X16: with the program's own [generate_tags], Phase 1 never writes an empty
    tag string: if no row of the store holds one before, none does after. *)
Theorem phase1_keeps_no_empty_tags get_page_content now
    (bookmarks : list node) (db : TagDB.t) (cl : option client)
    (init_mode : bool) :
  no_empty_tags db ->
  no_empty_tags (process_phase1 get_page_content generate_tags now bookmarks db
                   cl init_mode).1.
Proof.
  intros Hdb. rewrite process_phase1_eq. cbn zeta. cbn [fst].
  generalize (length bookmarks) at 1. intros total.
  generalize 0, false. revert db Hdb.
  induction bookmarks as [|n l IH]; intros db Hdb i q; simpl; [done|].
  pose proof (body_no_empty_tags get_page_content now cl init_mode total i n db q
                Hdb) as Hb.
  destruct (phase1_body _ _ _ _ _ _ i n db q) as [[db1 q1] e1].
  specialize (IH db1 Hb (S i) q1).
  by destruct (phase1_loop _ _ _ _ _ _ (S i) l db1 q1) as [[db2 q2] e2].
Qed.

Lemma phase1_keeps_no_empty_tags_witness :
  no_empty_tags (process_phase1 Sample.a_page generate_tags Sample.clock
                   Sample.three Sample.one_row (Some Sample.some_client) false).1.
Proof.
  apply phase1_keeps_no_empty_tags. intros url r Hr.
  destruct (decide (url = "http://a.test"%string)) as [->|Hne].
  - injection Hr as <-. discriminate.
  - unfold Sample.one_row in Hr. rewrite lookup_singleton_ne in Hr by done.
    discriminate Hr.
Defined.

(** X17: the store after Phase 1 is the store before it with the upserts of
    the trace applied in order: Phase 1 changes the store through nothing
    else. *)
Theorem phase1_store_is_replay get_page_content generator now
    (bookmarks : list node) (db : TagDB.t) (cl : option client)
    (init_mode : bool) :
  (process_phase1 get_page_content generator now bookmarks db cl init_mode).1
  = replay now
      (process_phase1 get_page_content generator now bookmarks db cl init_mode).2
      db.
Proof.
  rewrite process_phase1_eq. cbn zeta. cbn [fst snd replay]. apply loop_replay.
Qed.

Lemma manual_tags_at_end get_page_content generator now cl
    (bookmarks : list node) (db : TagDB.t) (i : nat) (n : node) :
  bookmarks !! i = Some n ->
  has_http_uri n = true ->
  existing_tags n <> [] ->
  (forall j m, i < j -> bookmarks !! j = Some m ->
     get_or_empty (uri m) = get_or_empty (uri n) ->
     existing_tags m = [] \/ existing_tags m = existing_tags n) ->
  TagDB.get_tags
    (process_phase1 get_page_content generator now bookmarks db cl false).1
    (get_or_empty (uri n))
  = Some (Py.join "," (existing_tags n)).
Proof.
  intros Hi Hhttp Hne Hlater. rewrite process_phase1_eq. cbn zeta. cbn [fst].
  rewrite (loop_at _ _ _ _ _ _ _ _ _ _ _ Hi). cbn zeta. cbn [fst].
  rewrite body_manual by done. cbn [fst snd].
  apply loop_keeps_tags; [done|apply get_tags_upsert_eq|].
  apply Forall_lookup. intros k m Hk Hm. rewrite lookup_drop in Hk.
  destruct (Hlater (S i + k) m) as [Hnone|Hsame]; [lia|done|done|by left|].
  right. by rewrite Hsame.
Qed.

(** X18: outside refresh mode, a taggable leaf with manual tags that no later
    bookmark of the same uri contradicts gets its own tags written back by
    Phase 2 in normal form: trimmed, empty fields dropped, joined by commas;
    the tag list it parses to is the one it had. *)
Theorem manual_tags_written_back get_page_content generator now cl
    (bookmarks : list node) (db : TagDB.t) (i : nat) (n : node) :
  let db' := (process_phase1 get_page_content generator now bookmarks db cl
                false).1 in
  bookmarks !! i = Some n ->
  taggable n = true ->
  existing_tags n <> [] ->
  (forall j m, i < j -> bookmarks !! j = Some m ->
     get_or_empty (uri m) = get_or_empty (uri n) ->
     existing_tags m = [] \/ existing_tags m = existing_tags n) ->
  tags (process_phase2 n db') = Some (Py.join "," (existing_tags n))
  /\ existing_tags (process_phase2 n db') = existing_tags n.
Proof.
  intros db' Hi Htag Hne Hlater.
  apply andb_true_iff in Htag as [Hplace Hhttp].
  pose proof (manual_tags_at_end get_page_content generator now cl bookmarks db
                i n Hi Hhttp Hne Hlater) as Hget.
  fold db' in Hget.
  assert (Htags : tags (process_phase2 n db')
                  = Some (Py.join "," (existing_tags n))).
  { destruct n as [ty u ti ta cs o].
    cbn [process_phase2 tags uri] in *. rewrite Hplace.
    unfold has_http_uri in Hhttp. cbn [uri] in Hhttp. rewrite Hhttp, Hget.
    destruct (existing_tags _) as [|w l] eqn:He; [done|].
    by rewrite (truthy_join "," w l (existing_tags_head _ _ _ He)). }
  split; [exact Htags|].
  unfold existing_tags at 1. rewrite Htags. cbn [get_or_empty].
  apply parse_tags_join_fixed.
Qed.

Lemma manual_tags_written_back_witness :
  tags (process_phase2 Sample.c_test
          (process_phase1 Sample.a_page Sample.foo_bar Sample.clock Sample.three
             ∅ (Some Sample.some_client) false).1)
  = Some "manual1,manual2".
Proof.
  refine (proj1 (manual_tags_written_back Sample.a_page Sample.foo_bar
                   Sample.clock (Some Sample.some_client) Sample.three ∅ 1
                   Sample.c_test _ _ _ _)); try reflexivity; try discriminate.
  intros [|[|[|j]]] m Hj Hm Hu; try lia.
  - injection Hm as <-. discriminate Hu.
  - discriminate Hm.
Defined.

Lemma get_page_content_failed requests_get i url :
  (requests_get i url = Http.Failed
   \/ exists st t ps, requests_get i url = Http.Response st t ps /\ st <> 200) ->
  Http.get_page_content requests_get i url = (EmptyString, EmptyString).
Proof.
  unfold Http.get_page_content. intros [->|(st & t & ps & -> & Hst)]; [done|].
  by rewrite (proj2 (Nat.eqb_neq st 200) Hst).
Qed.

(** X19: when the request for a page fails or its status is not 200, a
    bookmark that would be sent to the generator is sent only if its own
    title is non-empty, with that title and an empty text; an untitled one
    costs the fetch and the pause, no generation call, and leaves the store
    and the quota flag as they were. *)
Theorem unreachable_page_turn (requests_get : nat -> string -> Http.result)
    generator now cl init_mode total (j : nat) (n : node) (db : TagDB.t) :
  let url := get_or_empty (uri n) in
  let turn := phase1_body (Http.get_page_content requests_get) generator now cl
                init_mode total j n db false in
  has_http_uri n = true ->
  init_mode = true \/ (existing_tags n = [] /\ db !! url = None) ->
  (requests_get j url = Http.Failed
   \/ exists st t ps, requests_get j url = Http.Response st t ps /\ st <> 200) ->
  (get_or_empty (title n) = EmptyString ->
   turn.1 = (db, false) /\ actions_at j turn.2 = [Fetch url; Sleep])
  /\ (get_or_empty (title n) <> EmptyString ->
      exists rest,
        actions_at j turn.2
        = Fetch url :: Generate (get_or_empty (title n)) EmptyString :: rest).
Proof.
  intros url turn Hhttp Hcase Hfail.
  pose proof (body_generation (Http.get_page_content requests_get) generator now
                cl init_mode total j n db Hhttp Hcase) as Hacts.
  fold turn in Hacts. rewrite Hacts. unfold generation_turn. fold url.
  rewrite (get_page_content_failed _ _ _ Hfail). cbn [fst snd Py.truthy].
  split.
  - intros Htitle. rewrite Htitle. cbn [Py.truthy orb]. split; [|done].
    subst turn. unfold phase1_body. fold url.
    unfold has_http_uri in Hhttp. fold url in Hhttp. rewrite Hhttp. cbn [negb].
    assert (Hskip1 : negb init_mode && Py.nonempty (existing_tags n) = false).
    { destruct Hcase as [->|[-> _]]; [done | by rewrite andb_false_r]. }
    assert (Hskip2 : negb init_mode
                     && bool_decide (TagDB.get_tags db url <> None) = false).
    { destruct Hcase as [->|[_ Hrow]]; [done|].
      unfold TagDB.get_tags. rewrite Hrow.
      rewrite bool_decide_eq_false_2; [by rewrite andb_false_r | by intros H]. }
    rewrite Hskip1, Hskip2, (get_page_content_failed _ _ _ Hfail), Htitle.
    done.
  - intros Htitle. destruct (get_or_empty (title n)) as [|c s] eqn:Ht; [done|].
    cbn [Py.truthy orb]. eauto.
Qed.

Lemma unreachable_page_turn_witness :
  actions_at 0
    (phase1_body (Http.get_page_content (fun _ _ => Http.Failed)) Sample.foo_bar
       Sample.clock (Some Sample.some_client) false 1 0 Sample.a_test ∅ false).2
  = [Fetch "http://a.test"; Sleep].
Proof.
  refine (proj2 (proj1 (unreachable_page_turn (fun _ _ => Http.Failed)
                          Sample.foo_bar Sample.clock (Some Sample.some_client)
                          false 1 0 Sample.a_test ∅ _ _ _) _)).
  - reflexivity.
  - right. split; reflexivity.
  - left. reflexivity.
  - reflexivity.
Defined.

(** ** The program, further *)

Section MainFurther.

Variable get_page_content : nat -> string -> string * string.
Variable now : nat -> string.
Variable genai_Client : string -> client.
Variable json_load : string -> option node.
Variable json_dump : node -> string.
Variable generator : option client -> nat -> string -> string ->
                     list message * generated.

Local Abbreviation run_main :=
  (main_with get_page_content now genai_Client json_load json_dump generator).


(** X21: when the document cannot be parsed, [main] stops on the exception
    of [json.load]: the input file is as it was, its copy is left behind, the
    database file is not opened (so not created if it was absent) and no
    bookmark is looked at. *)
Theorem main_unreadable_document (w : world) (input_file contents : string)
    (init : bool) :
  let r := run_main w input_file init in
  files w !! input_file = Some contents ->
  json_load contents = None ->
  ended r = Crashed
  /\ files (final r) !! input_file = Some contents
  /\ files (final r) !! (input_file +:+ ".temp")%string = Some contents
  /\ cache (final r) = cache w
  /\ data r = None
  /\ trace r = [Say (MsgWorkingOnCopy (input_file +:+ ".temp"))].
Proof.
  intros r Hin Hload. subst r. unfold main_with. rewrite Hin.
  rewrite lookup_insert_eq. cbn [mbind option_bind]. rewrite Hload. cbn.
  rewrite lookup_insert_eq.
  by rewrite lookup_insert_ne by apply temp_path_differs.
Qed.


End MainFurther.


Lemma main_unreadable_document_witness :
  ended (main_with Sample.a_page Sample.clock Sample.connect (fun _ => None)
           Sample.dump Sample.foo_bar Sample.with_key "bookmarks.json" false)
  = Crashed.
Proof.
  refine (proj1 (main_unreadable_document Sample.a_page Sample.clock
                   Sample.connect (fun _ => None) Sample.dump Sample.foo_bar
                   Sample.with_key "bookmarks.json" "exported" false _ _));
    reflexivity.
Defined.


Lemma generate_tags_outcomes_witness :
  "foo"%string <> EmptyString /\ Py.strip "foo" = "foo"%string
  /\ ~ In ","%char (list_ascii_of_string "foo").
Proof.
  exact (generate_tags_outcomes (Some Sample.some_client) 0 "t" "c" "foo"
           (or_introl eq_refl)).
Defined.
